(** * nlup.confusion: confusion matrices and summary statistics

    A shallow embedding of [src/nlup/confusion.py] (Python 3 semantics:
    [/] is true division, dictionaries keep insertion order).

    - Python [int] is [Z]; Python [float] is the primitive binary64 [float].
    - Raising is modelled by the [result] monad; [try/except] by [try_except].
    - [Accuracy] and [BinaryConfusion] only hold integers, so an instance is a
      record and a mutating method returns the updated record.
    - [Confusion] holds a dictionary of dictionaries.  The inner dictionaries
      (rows) are mutable objects that [dict.copy] shares between instances, so
      they live in an explicit [heap] and a matrix maps truth labels to row
      addresses. *)

From Stdlib Require Import ZArith Floats Lia.
From stdpp Require Import base list strings.

#[local] Set Warnings "-inexact-float".
#[local] Open Scope Z_scope.

(** ** Exceptions *)

Inductive exn : Set :=
| ZeroDivisionError
| TypeError
| ValueError
| AssertionError
| NameError
| OverflowError.

Inductive result (A : Type) : Type :=
| Ok (a : A)
| Raise (e : exn).
Arguments Ok {A} a.
Arguments Raise {A} e.

Definition bind {A B} (c : result A) (k : A -> result B) : result B :=
  match c with
  | Ok a => k a
  | Raise e => Raise e
  end.

Notation "x <- c ;; k" := (bind c (fun x => k))
  (at level 100, c at next level, right associativity).

Definition exn_eqb (a b : exn) : bool :=
  match a, b with
  | ZeroDivisionError, ZeroDivisionError
  | TypeError, TypeError
  | ValueError, ValueError
  | AssertionError, AssertionError
  | NameError, NameError
  | OverflowError, OverflowError => true
  | _, _ => false
  end.

(** [try: c  except e: handler] *)
Definition try_except {A} (c : result A) (e : exn) (handler : result A)
  : result A :=
  match c with
  | Ok a => Ok a
  | Raise e' => if exn_eqb e' e then handler else Raise e'
  end.

(** ** Python values used as labels *)

Inductive value : Set :=
| VNone
| VBool (b : bool)
| VInt (n : Z)
| VStr (s : string).

(** [bool(v)] *)
Definition py_bool (v : value) : bool :=
  match v with
  | VNone => false
  | VBool b => b
  | VInt n => negb (n =? 0)
  | VStr s => negb (String.eqb s "")
  end.

(** [bool] is a subclass of [int]: [True == 1] and [False == 0]. *)
Definition as_int (v : value) : option Z :=
  match v with
  | VBool b => Some (Z.b2z b)
  | VInt n => Some n
  | _ => None
  end.

(** [a == b] *)
Definition py_eq (a b : value) : bool :=
  match a, b with
  | VNone, VNone => true
  | VStr s, VStr t => String.eqb s t
  | _, _ =>
      match as_int a, as_int b with
      | Some x, Some y => x =? y
      | _, _ => false
      end
  end.

(** ** Numbers *)

Definition NAN : float := nan.
Definition INF : float := infinity.

Definition Z2SF (n : Z) : spec_float :=
  match n with
  | Z0 => S754_zero false
  | Zpos p => S754_finite false p 0
  | Zneg p => S754_finite true p 0
  end.

(** [float(n)]: nearest binary64, [OverflowError] beyond the finite range. *)
Definition int_to_float (n : Z) : result float :=
  match binary_normalize prec emax n 0 false with
  | S754_infinity _ => Raise OverflowError
  | f => Ok (SF2Prim f)
  end.

(** [a / b] on two ints: the correctly rounded quotient. *)
Definition int_truediv (a b : Z) : result float :=
  if b =? 0 then Raise ZeroDivisionError
  else
    match SFdiv prec emax (Z2SF a) (Z2SF b) with
    | S754_infinity _ => Raise OverflowError
    | q => Ok (SF2Prim q)
    end.

(** [x / y] on two floats. *)
Definition float_truediv (x y : float) : result float :=
  if (y =? 0)%float then Raise ZeroDivisionError else Ok (x / y)%float.

(** [x / n] with a float on the left and an int on the right. *)
Definition float_div_int (x : float) (n : Z) : result float :=
  y <- int_to_float n ;; float_truediv x y.

(** [math.sqrt] *)
Definition math_sqrt (x : float) : result float :=
  if (x <? 0)%float then Raise ValueError else Ok (sqrt x).

(** The builtin [len]: [__len__] must return a non-negative index-sized int. *)
Definition sys_maxsize : Z := 2 ^ 63 - 1.

Definition py_len (n : Z) : result Z :=
  if n <? 0 then Raise ValueError
  else if sys_maxsize <? n then Raise OverflowError
  else Ok n.

(** ** Module globals

    Names bound at module level in confusion.py.  A name that is read in a
    function body without being a parameter or assigned there is looked up
    here. *)

Inductive global : Set :=
| GFloat (f : float)
| GFunction
| GClass.

Definition module_globals : list (string * global) :=
  [ ("sqrt", GFunction); ("partial", GClass); ("defaultdict", GClass);
    ("NAN", GFloat NAN); ("INF", GFloat INF);
    ("ConfusionMixin", GClass); ("Accuracy", GClass);
    ("BinaryConfusion", GClass); ("Confusion", GClass) ]%string.

Fixpoint assoc_string {V} (l : list (string * V)) (name : string) : option V :=
  match l with
  | [] => None
  | (k, v) :: l' => if String.eqb k name then Some v else assoc_string l' name
  end.

Definition load_global (name : string) : result global :=
  match assoc_string module_globals name with
  | Some g => Ok g
  | None => Raise NameError
  end.

(** [g > 0.] for a global [g]; only numbers compare with a float. *)
Definition global_gt_zero (g : global) : result bool :=
  match g with
  | GFloat f => Ok (0 <? f)%float
  | _ => Raise TypeError
  end.

Definition global_float (g : global) : result float :=
  match g with
  | GFloat f => Ok f
  | _ => Raise TypeError
  end.

(** ** ConfusionMixin

    The mixin needs [len(self)] and [self.accuracy] from the class it is
    mixed into. *)

Class ConfusionLike (A : Type) := {
  len : A -> result Z;
  accuracy : A -> result float
}.

Definition z_alpha : float := 1.9599639845400538273879%float.

Definition confint {A} `{ConfusionLike A} (self : A)
  : result (float * float) :=
  p <- accuracy self ;;
  n0 <- len self ;;
  if n0 =? 0 then Ok (0%float, 1%float)
  else
    n <- len self ;;
    phat <- accuracy self ;;
    let z := z_alpha in
    let zsq := (z * z)%float in
    q1 <- float_div_int zsq n ;;
    a1 <- float_truediv 1 (1 + q1) ;;
    q2 <- float_div_int zsq (2 * n) ;;
    let a2 := (phat + q2)%float in
    q3 <- float_div_int (phat * (1 - phat)) n ;;
    q4 <- float_div_int zsq (4 * n * n) ;;
    s <- math_sqrt (q3 + q4) ;;
    let a3 := (z * s)%float in
    Ok ((a1 * (a2 - a3))%float, (a1 * (a2 + a3))%float).

(** [for (truth, guess) in zip(truths, guesses): self.update(truth, guess)] *)
Definition batch_update {S} (update : S -> value -> value -> S)
  (self : S) (truths guesses : list value) : S :=
  fold_left (fun s tg => update s tg.1 tg.2) (zip truths guesses) self.

(** ** Accuracy *)

Module Accuracy.

Record t : Set := init { correct : Z; incorrect : Z }.

Definition __len__ (self : t) : Z := correct self + incorrect self.

Definition update (self : t) (truth guess : value) : t :=
  if py_eq truth guess
  then init (correct self + 1) (incorrect self)
  else init (correct self) (incorrect self + 1).

Definition accuracy (self : t) : result float :=
  n <- py_len (__len__ self) ;;
  int_truediv (correct self) n.

#[global] Instance confusion_like : ConfusionLike t :=
  Build_ConfusionLike t (fun self => py_len (__len__ self)) accuracy.

End Accuracy.

(** ** BinaryConfusion *)

Module BinaryConfusion.

Record t : Set := init { hit : value; tp : Z; fp : Z; fn : Z; tn : Z }.

(** [BinaryConfusion()] *)
Definition default : t := init (VBool true) 0 0 0 0.

Definition __len__ (self : t) : Z :=
  tp self + fp self + fn self + tn self.

Definition update (self : t) (truth guess : value) : t :=
  let truth := py_bool truth in
  let guess := py_bool guess in
  if truth then
    if guess
    then init (hit self) (tp self + 1) (fp self) (fn self) (tn self)
    else init (hit self) (tp self) (fp self) (fn self + 1) (tn self)
  else if guess
    then init (hit self) (tp self) (fp self + 1) (fn self) (tn self)
    else init (hit self) (tp self) (fp self) (fn self) (tn self + 1).

Definition accuracy (self : t) : result float :=
  try_except
    (n <- py_len (__len__ self) ;; int_truediv (tp self + tn self) n)
    ZeroDivisionError (Ok NAN).

#[global] Instance confusion_like : ConfusionLike t :=
  Build_ConfusionLike t (fun self => py_len (__len__ self)) accuracy.

(** The lines of [Kappa] that compute the chance agreement [Pe]. *)
Definition Kappa_Pe (self : t) : result float :=
  nx <- py_len (__len__ self) ;;
  Px <- int_truediv (tp self + fp self) nx ;;
  ny <- py_len (__len__ self) ;;
  Py <- int_truediv (tp self + fn self) ny ;;
  Ok ((Px * Py) + ((1 - Px) * (1 - Py)))%float.

Definition Kappa (self : t) : result float :=
  n <- py_len (__len__ self) ;;
  if n =? 0 then Ok NAN
  else
    Pe <- Kappa_Pe self ;;
    acc <- accuracy self ;;
    float_truediv (acc - Pe) (1 - Pe).

Definition precision (self : t) : result float :=
  try_except (int_truediv (tp self) (tp self + fp self))
    ZeroDivisionError (Ok INF).

Definition recall (self : t) : result float :=
  try_except (int_truediv (tp self) (tp self + fn self))
    ZeroDivisionError (Ok INF).

Definition sensitivity (self : t) : result float := recall self.

Definition specificity (self : t) : result float :=
  try_except (int_truediv (tp self) (fp self + tn self))
    ZeroDivisionError (Ok INF).

Definition Fscore (self : t) (ratio : float) : result float :=
  if negb (0 <? ratio)%float then Raise AssertionError
  else
    let r_square := (ratio * ratio)%float in
    P <- precision self ;;
    R <- recall self ;;
    float_truediv ((1 + r_square) * P * R) (r_square * P + R).

Definition F1 (self : t) : result float := Fscore self 1.

(** The parameter is [ns_ratio]; the body reads [ratio], which is not a
    local name and is therefore looked up among the module globals. *)
Definition Sscore (self : t) (ns_ratio : float) : result float :=
  g <- load_global "ratio" ;;
  positive <- global_gt_zero g ;;
  if negb positive then Raise AssertionError
  else
    ratio <- global_float g ;;
    let r_square := (ratio * ratio)%float in
    Sp <- specificity self ;;
    Se <- sensitivity self ;;
    float_truediv ((ns_ratio + r_square) * Sp * Se) (r_square * Sp * Se).

Definition S1 (self : t) : result float := Sscore self 1.

(** Aliases and the rarely used rates. *)
Definition PPV (self : t) : result float := precision self.

Definition TPR (self : t) : result float := recall self.

Definition TNR (self : t) : result float := specificity self.

Definition FPR (self : t) : result float :=
  try_except (int_truediv (fp self) (fp self + tn self))
    ZeroDivisionError (Ok INF).

Definition NPV (self : t) : result float :=
  try_except (int_truediv (tn self) (tn self + fn self))
    ZeroDivisionError (Ok INF).

Definition FDR (self : t) : result float :=
  p <- PPV self ;; Ok (1 - p)%float.

Definition MCC (self : t) : result float :=
  try_except
    (N <- py_len (__len__ self) ;;
     S <- int_truediv (tp self + fn self) N ;;
     P <- int_truediv (tp self + fp self) N ;;
     let PS := (P * S)%float in
     denom <- math_sqrt (PS * (1 - S) * (1 - P)) ;;
     q <- int_truediv (tp self) N ;;
     float_truediv (q - PS) denom)
    ZeroDivisionError (Ok NAN).

End BinaryConfusion.

(** ** Dictionaries

    A [dict] keeps its items in insertion order and compares keys with [==].
    Assigning to a key that is present keeps its position and the stored key. *)

Section Dict.
Context {V : Type}.

Fixpoint dict_get (d : list (value * V)) (k : value) : option V :=
  match d with
  | [] => None
  | (k', v) :: d' => if py_eq k' k then Some v else dict_get d' k
  end.

Fixpoint dict_set (d : list (value * V)) (k : value) (v : V)
  : list (value * V) :=
  match d with
  | [] => [(k, v)]
  | (k', v') :: d' =>
      if py_eq k' k then (k', v) :: d' else (k', v') :: dict_set d' k v
  end.
End Dict.

(** ** The store of rows

    A row is one inner [defaultdict(int)].  Rows are allocated at the end of
    the heap and never freed. *)

Abbreviation addr := nat.
Abbreviation row := (list (value * Z)).
Abbreviation heap := (list row).

Definition deref (h : heap) (a : addr) : row := default [] (h !! a).

(** [sum(r.values())] *)
Fixpoint row_total (r : row) : Z :=
  match r with
  | [] => 0
  | (_, n) :: r' => n + row_total r'
  end.

(** [row[guess] += k] on the [defaultdict(int)] stored at [a]: a missing
    key is first created with [int() = 0]. *)
Definition row_iadd (h : heap) (a : addr) (guess : value) (k : Z) : heap :=
  let r := deref h a in
  let old := default 0 (dict_get r guess) in
  <[a := dict_set r guess (old + k)]> h.

(** ** Confusion *)

Module Confusion.

Record t : Set := mk { matrix : list (value * addr); correct : Z; incorrect : Z }.

(** [Confusion()] *)
Definition init : t := mk [] 0 0.

Definition __len__ (self : t) : Z := correct self + incorrect self.

(** [m[truth]] on the outer [defaultdict(partial(defaultdict, int))]: a
    missing key is bound to a newly allocated empty row.  Returns the heap,
    the outer dictionary and the address of the row. *)
Definition matrix_getitem (h : heap) (m : list (value * addr)) (truth : value)
  : heap * list (value * addr) * addr :=
  match dict_get m truth with
  | Some a => (h, m, a)
  | None => (h ++ [[]], m ++ [(truth, length h)], length h)
  end.

Definition update (st : heap * t) (truth guess : value) (k : Z) : heap * t :=
  let '(h, self) := st in
  let '(h1, m1, a) := matrix_getitem h (matrix self) truth in
  let h2 := row_iadd h1 a guess k in
  if py_eq truth guess
  then (h2, mk m1 (correct self + 1) (incorrect self))
  else (h2, mk m1 (correct self) (incorrect self + 1)).

(** [update] with the default weight, as [batch_update] calls it. *)
Definition update1 (st : heap * t) (truth guess : value) : heap * t :=
  update st truth guess 1.

Definition accuracy (self : t) : result float :=
  int_truediv (correct self) (correct self + incorrect self).

#[global] Instance confusion_like : ConfusionLike t :=
  Build_ConfusionLike t (fun self => py_len (__len__ self)) accuracy.

(** [sum(sum(gf.values()) for gf in self.matrix.values())] *)
Fixpoint cells_total (h : heap) (m : list (value * addr)) : Z :=
  match m with
  | [] => 0
  | (_, a) :: m' => row_total (deref h a) + cells_total h m'
  end.

(** The loop of [Kappa] that accumulates [Pe] over the rows. *)
Definition Kappa_Pe (h : heap) (self : t) : result float :=
  let total := cells_total h (matrix self) in
  fold_left
    (fun acc ta =>
       Pe <- acc ;;
       Pe_i <- int_truediv (row_total (deref h ta.2)) total ;;
       Ok (Pe + Pe_i * Pe_i)%float)
    (matrix self) (Ok 0%float).

Definition Kappa (h : heap) (self : t) : result float :=
  Pe <- Kappa_Pe h self ;;
  acc <- accuracy self ;;
  float_truediv (acc - Pe) (1 - Pe).

(** [self.matrix[truth][guess]], read without creating anything. *)
Definition cell (h : heap) (self : t) (truth guess : value) : Z :=
  match dict_get (matrix self) truth with
  | Some a => default 0 (dict_get (deref h a) guess)
  | None => 0
  end.

End Confusion.

(** ** Objects and the [+] operator *)

Inductive accumulator : Set :=
| Acc (a : Accuracy.t)
| Bin (b : BinaryConfusion.t)
| Conf (c : Confusion.t).

Inductive pyobj : Set :=
| Obj (a : accumulator)
| Val (v : value).

Inductive kind : Set := KAccuracy | KBinaryConfusion | KConfusion.

Definition kind_of (a : accumulator) : kind :=
  match a with
  | Acc _ => KAccuracy
  | Bin _ => KBinaryConfusion
  | Conf _ => KConfusion
  end.

(** [Accuracy.__add__] *)
Definition Accuracy_add (self : Accuracy.t) (right : pyobj)
  : result Accuracy.t :=
  match right with
  | Obj (Acc r) =>
      Ok (Accuracy.init
            (Accuracy.correct self + Accuracy.correct r)
            (Accuracy.incorrect self + Accuracy.incorrect r))
  | _ => Raise TypeError
  end.

(** [BinaryConfusion.__add__] *)
Definition BinaryConfusion_add (self : BinaryConfusion.t) (right : pyobj)
  : result BinaryConfusion.t :=
  match right with
  | Obj (Bin r) =>
      if negb (py_eq (BinaryConfusion.hit self) (BinaryConfusion.hit r))
      then Raise ValueError
      else
        Ok (BinaryConfusion.init (BinaryConfusion.hit self)
              (BinaryConfusion.tp self + BinaryConfusion.tp r)
              (BinaryConfusion.fp self + BinaryConfusion.fp r)
              (BinaryConfusion.fn self + BinaryConfusion.fn r)
              (BinaryConfusion.tn self + BinaryConfusion.tn r))
  | _ => Raise TypeError
  end.

(** The body of the inner loop of [Confusion.__add__]:
    [for (guess, count) in guess_count.items(): truth_ptr[guess] += count].
    The items are those of the row when the loop starts; the only write the
    loop makes to a row it is reading goes to the key being visited. *)
Definition add_row (h : heap) (truth_ptr : addr) (guess_count : row) : heap :=
  fold_left (fun h gc => row_iadd h truth_ptr gc.1 gc.2) guess_count h.

(** The outer loop of [Confusion.__add__] over [right.matrix.items()];
    the state is the heap and [retval.matrix]. *)
Definition add_rows (right_matrix : list (value * addr))
  (st : heap * list (value * addr)) : heap * list (value * addr) :=
  fold_left
    (fun st ta =>
       let '(h, m) := st in
       let guess_count := deref h ta.2 in
       let '(h1, m1, truth_ptr) := Confusion.matrix_getitem h m ta.1 in
       (add_row h1 truth_ptr guess_count, m1))
    right_matrix st.

(** [Confusion.__add__].  [self.matrix.copy()] is a new outer dictionary
    holding the same row objects. *)
Definition Confusion_add (h : heap) (self : Confusion.t) (right : pyobj)
  : result (heap * Confusion.t) :=
  match right with
  | Obj (Conf r) =>
      let retval_matrix := Confusion.matrix self in
      let '(h', m') := add_rows (Confusion.matrix r) (h, retval_matrix) in
      Ok (h', Confusion.mk m'
                (Confusion.correct self + Confusion.correct r)
                (Confusion.incorrect self + Confusion.incorrect r))
  | _ => Raise TypeError
  end.

(** [left + right] with an accumulator on the left. *)
Definition add (h : heap) (left : accumulator) (right : pyobj)
  : result (heap * accumulator) :=
  match left with
  | Acc a => r <- Accuracy_add a right ;; Ok (h, Acc r)
  | Bin b => r <- BinaryConfusion_add b right ;; Ok (h, Bin r)
  | Conf c => hr <- Confusion_add h c right ;; Ok (hr.1, Conf hr.2)
  end.

(** ** Ownership of rows

    The addresses a matrix refers to, and what it means for a matrix to be
    the only owner of well-allocated rows. *)

Definition addrs (m : list (value * addr)) : list addr := m.*2.

Definition wf (h : heap) (c : Confusion.t) : Prop :=
  NoDup (addrs (Confusion.matrix c)) /\
  Forall (fun a => (a < length h)%nat) (addrs (Confusion.matrix c)).

(** [correct + incorrect] equals the sum of all cells. *)
Definition count_inv (h : heap) (c : Confusion.t) : Prop :=
  Confusion.correct c + Confusion.incorrect c
  = Confusion.cells_total h (Confusion.matrix c).

(** No row of [b] is a row of [a]. *)
Definition separate (a b : Confusion.t) : Prop :=
  forall x, x ∈ addrs (Confusion.matrix b) -> x ∉ addrs (Confusion.matrix a).

(** Matrices built from [Confusion()] by [update] with the default weight
    and by [+] on operands that share no row; a matrix stays built while the
    rest of the program leaves its rows alone. *)
Inductive built : heap -> Confusion.t -> Prop :=
| built_init h : built h Confusion.init
| built_update h c truth guess :
    built h c ->
    built (Confusion.update1 (h, c) truth guess).1
          (Confusion.update1 (h, c) truth guess).2
| built_add h a b h' r :
    built h a -> built h b -> separate a b ->
    Confusion_add h a (Obj (Conf b)) = Ok (h', r) ->
    built h' r
| built_frame h h' c :
    built h c ->
    (forall a, a ∈ addrs (Confusion.matrix c) -> h' !! a = h !! a) ->
    built h' c.

(** ** Reachable matrices

    [lab] records, for every row address, the truth label the row was
    allocated for: a row is created by [m[truth]] for one label and every
    matrix that holds it, through [dict.copy], holds it under that label. *)

Definition labelled (lab : addr -> value) (m : list (value * addr)) : Prop :=
  Forall (fun ta => py_eq (lab ta.2) ta.1 = true) m.

(** The label under which [m] stores the row [x]. *)
Fixpoint key_of (m : list (value * addr)) (x : addr) : option value :=
  match m with
  | [] => None
  | (t, a) :: m' => if (a =? x)%nat then Some t else key_of m' x
  end.

(** The labelling after an operation that started in [h] and left the
    matrix [m]: a row allocated by the operation takes the label under which
    [m] stores it. *)
Definition relabel (lab : addr -> value) (h : heap) (m : list (value * addr))
  : addr -> value :=
  fun x =>
    if (x <? length h)%nat then lab x
    else match key_of m x with Some t => t | None => lab x end.

(** Matrices reached from [Confusion()] by [update] with the default weight
    and by [+] on reached operands, whether they share rows or not; a matrix
    stays reached while the rest of the program leaves its rows alone. *)
Inductive reach : (addr -> value) -> heap -> Confusion.t -> Prop :=
| reach_init lab h : reach lab h Confusion.init
| reach_update lab h c truth guess :
    reach lab h c ->
    reach (relabel lab h
             (Confusion.matrix (Confusion.update1 (h, c) truth guess).2))
          (Confusion.update1 (h, c) truth guess).1
          (Confusion.update1 (h, c) truth guess).2
| reach_add lab h a b h' r :
    reach lab h a -> reach lab h b ->
    Confusion_add h a (Obj (Conf b)) = Ok (h', r) ->
    reach (relabel lab h (Confusion.matrix r)) h' r
| reach_frame lab lab' h h' c :
    reach lab h c ->
    (forall x, x ∈ addrs (Confusion.matrix c) ->
               h' !! x = h !! x /\ lab' x = lab x) ->
    reach lab' h' c.

(** Every row of the matrix has a non-negative total. *)
Definition rows_nonneg (h : heap) (m : list (value * addr)) : Prop :=
  Forall (fun a => 0 <= row_total (deref h a)) (addrs m).

(** The four counts of a binary matrix. *)
Definition cells (b : BinaryConfusion.t) : Z * Z * Z * Z :=
  (BinaryConfusion.tp b, BinaryConfusion.fp b,
   BinaryConfusion.fn b, BinaryConfusion.tn b).

(** ** Observations and float classes *)

(** Truth and guess agree in every observation. *)
Definition perfect (obs : list (value * value)) : Prop :=
  Forall (fun tg => py_eq tg.1 tg.2 = true) obs.

(** Neither zero, nor infinite, nor NaN. *)
Definition is_finite_nonzero (x : float) : bool :=
  match classify x with
  | PNormal | NNormal | PSubn | NSubn => true
  | _ => false
  end.

(** ** Counting observations *)

(** The number of pairs of [obs] that satisfy [f]. *)
Fixpoint count_pairs (f : value -> value -> bool) (obs : list (value * value))
  : Z :=
  match obs with
  | [] => 0
  | (t, g) :: obs' => Z.b2z (f t g) + count_pairs f obs'
  end.

(** The four kinds of binary observation, after coercion with [bool]. *)
Definition is_tp (t g : value) : bool := py_bool t && py_bool g.
Definition is_fn (t g : value) : bool := py_bool t && negb (py_bool g).
Definition is_fp (t g : value) : bool := negb (py_bool t) && py_bool g.
Definition is_tn (t g : value) : bool := negb (py_bool t) && negb (py_bool g).

(** [len] of an accumulator, before the range check of the builtin. *)
Definition acc_len (a : accumulator) : Z :=
  match a with
  | Acc a => Accuracy.__len__ a
  | Bin b => BinaryConfusion.__len__ b
  | Conf c => Confusion.__len__ c
  end.

(** ** Well-formed dictionaries

    No two keys of a dictionary are equal under [==]. *)

Fixpoint dict_ok {V} (d : list (value * V)) : Prop :=
  match d with
  | [] => True
  | (k, _) :: d' => dict_get d' k = None /\ dict_ok d'
  end.

(** [m[truth][guess]] for an outer dictionary [m], read without creating
    anything. *)
Definition lookup_cell (h : heap) (m : list (value * addr))
  (truth guess : value) : Z :=
  match dict_get m truth with
  | Some a => default 0 (dict_get (deref h a) guess)
  | None => 0
  end.

(** A matrix whose outer dictionary and rows are dictionaries, and whose
    rows are allocated and pairwise distinct. *)
Definition owns (h : heap) (c : Confusion.t) : Prop :=
  wf h c /\ dict_ok (Confusion.matrix c) /\
  Forall (fun a => dict_ok (deref h a)) (addrs (Confusion.matrix c)).

(** * Properties *)

(** ** Arithmetic helpers *)

Lemma py_len_zero (n : Z) : py_len n = Ok 0 -> n = 0.
Proof.
  unfold py_len.
  destruct (n <? 0); [discriminate |].
  destruct (sys_maxsize <? n); [discriminate |].
  now intros [= ->].
Qed.

Lemma int_truediv_by_zero (a : Z) : int_truediv a 0 = Raise ZeroDivisionError.
Proof. reflexivity. Qed.

Lemma int_truediv_zero_pos (n : Z) : 0 < n -> int_truediv 0 n = Ok 0%float.
Proof.
  intros Hn. destruct n as [| p | p]; try lia. reflexivity.
Qed.

(** ** Empty accumulators *)

Lemma Accuracy_accuracy_empty (a : Accuracy.t) :
  len a = Ok 0 -> Accuracy.accuracy a = Raise ZeroDivisionError.
Proof.
  intros H. unfold Accuracy.accuracy.
  change (len a) with (py_len (Accuracy.__len__ a)) in H.
  now rewrite H.
Qed.

Lemma Confusion_accuracy_empty (c : Confusion.t) :
  len c = Ok 0 -> Confusion.accuracy c = Raise ZeroDivisionError.
Proof.
  intros H%py_len_zero. unfold Confusion.accuracy.
  unfold Confusion.__len__ in H. now rewrite H.
Qed.

Lemma BinaryConfusion_accuracy_empty (b : BinaryConfusion.t) :
  len b = Ok 0 -> BinaryConfusion.accuracy b = Ok NAN.
Proof.
  intros H. unfold BinaryConfusion.accuracy.
  change (len b) with (py_len (BinaryConfusion.__len__ b)) in H.
  now rewrite H.
Qed.

(** C5: with no observations, [Accuracy.accuracy] and [Confusion.accuracy]
    raise [ZeroDivisionError], while [BinaryConfusion.accuracy] returns NaN. *)
Theorem accuracy_of_empty :
  (forall a : Accuracy.t,
      len a = Ok 0 -> Accuracy.accuracy a = Raise ZeroDivisionError) /\
  (forall c : Confusion.t,
      len c = Ok 0 -> Confusion.accuracy c = Raise ZeroDivisionError) /\
  (forall b : BinaryConfusion.t,
      len b = Ok 0 -> BinaryConfusion.accuracy b = Ok NAN).
Proof.
  split; [| split].
  - exact Accuracy_accuracy_empty.
  - exact Confusion_accuracy_empty.
  - exact BinaryConfusion_accuracy_empty.
Qed.

Lemma accuracy_of_empty_witness :
  Accuracy.accuracy (Accuracy.init 0 0) = Raise ZeroDivisionError /\
  Confusion.accuracy Confusion.init = Raise ZeroDivisionError /\
  BinaryConfusion.accuracy BinaryConfusion.default = Ok NAN.
Proof.
  destruct accuracy_of_empty as (Ha & Hc & Hb).
  split; [| split].
  - apply Ha. reflexivity.
  - apply Hc. reflexivity.
  - apply Hb. reflexivity.
Defined.

(** The guard of [confint] is only reached once [self.accuracy] has been
    evaluated. *)
Lemma confint_accuracy_raises {T} `{ConfusionLike T} (self : T) (e : exn) :
  accuracy self = Raise e -> confint self = Raise e.
Proof. intros Hacc. unfold confint. now rewrite Hacc. Qed.

Lemma confint_BinaryConfusion_empty (b : BinaryConfusion.t) :
  len b = Ok 0 -> confint b = Ok (0%float, 1%float).
Proof.
  intros H. unfold confint.
  change (accuracy b) with (BinaryConfusion.accuracy b).
  rewrite (BinaryConfusion_accuracy_empty b H). cbn [bind].
  now rewrite H.
Qed.

(** C1: on an empty [Accuracy] or [Confusion], [confint] raises
    [ZeroDivisionError] instead of returning [(0., 1.)]; only the empty
    [BinaryConfusion] gets the documented interval. *)
Theorem confint_of_empty :
  confint (Accuracy.init 0 0) = Raise ZeroDivisionError /\
  confint Confusion.init = Raise ZeroDivisionError /\
  confint BinaryConfusion.default = Ok (0%float, 1%float).
Proof.
  split; [| split].
  - apply confint_accuracy_raises. reflexivity.
  - apply confint_accuracy_raises. reflexivity.
  - apply confint_BinaryConfusion_empty. reflexivity.
Qed.

(** ** BinaryConfusion.update *)

(** C7: [BinaryConfusion.update] coerces [truth] and [guess] with [bool] and
    adds one to exactly one cell: [tp] for (true, true), [fn] for
    (true, false), [fp] for (false, true), [tn] for (false, false); the other
    three cells and the hit label are unchanged. *)
Theorem BinaryConfusion_update_cells
  (self : BinaryConfusion.t) (truth guess : value) :
  let self' := BinaryConfusion.update self truth guess in
  let t := py_bool truth in
  let g := py_bool guess in
  BinaryConfusion.hit self' = BinaryConfusion.hit self /\
  BinaryConfusion.tp self' = BinaryConfusion.tp self + Z.b2z (t && g) /\
  BinaryConfusion.fn self' = BinaryConfusion.fn self + Z.b2z (t && negb g) /\
  BinaryConfusion.fp self' = BinaryConfusion.fp self + Z.b2z (negb t && g) /\
  BinaryConfusion.tn self' = BinaryConfusion.tn self + Z.b2z (negb t && negb g).
Proof.
  unfold BinaryConfusion.update.
  destruct (py_bool truth), (py_bool guess); cbn; repeat split; lia.
Qed.

(** ** Errors of [+] *)

(** C6: [+] raises [TypeError] when the operands are accumulators of
    different classes, [ValueError] when two binary matrices differ in their
    hit label, and returns a result when the classes agree and, for binary
    matrices, the hit labels are equal. *)
Theorem add_errors :
  (forall (h : heap) (l r : accumulator),
      kind_of l <> kind_of r -> add h l (Obj r) = Raise TypeError) /\
  (forall (h : heap) (a b : BinaryConfusion.t),
      py_eq (BinaryConfusion.hit a) (BinaryConfusion.hit b) = false ->
      add h (Bin a) (Obj (Bin b)) = Raise ValueError) /\
  (forall (h : heap) (l r : accumulator),
      kind_of l = kind_of r ->
      (forall a b, l = Bin a -> r = Bin b ->
         py_eq (BinaryConfusion.hit a) (BinaryConfusion.hit b) = true) ->
      exists res, add h l (Obj r) = Ok res /\ kind_of res.2 = kind_of l).
Proof.
  split; [| split].
  - intros h [a | b | c] [a' | b' | c'] Hk; cbn in Hk; try congruence;
      reflexivity.
  - intros h a b Hhit. cbn. now rewrite Hhit.
  - intros h [a | b | c] [a' | b' | c'] Hk Hhit; cbn in Hk; try discriminate.
    + eexists. split; reflexivity.
    + cbn. rewrite (Hhit b b' eq_refl eq_refl). cbn. eexists.
      split; reflexivity.
    + cbn. destruct (add_rows _ _) as [h' m']. cbn. eexists.
      split; reflexivity.
Qed.

Lemma add_errors_witness :
  add [] (Acc (Accuracy.init 1 0)) (Obj (Bin BinaryConfusion.default))
    = Raise TypeError /\
  add [] (Bin BinaryConfusion.default)
         (Obj (Bin (BinaryConfusion.init (VStr "yes") 0 0 0 0)))
    = Raise ValueError /\
  exists res,
    add [] (Bin BinaryConfusion.default) (Obj (Bin BinaryConfusion.default))
      = Ok res /\ kind_of res.2 = KBinaryConfusion.
Proof.
  destruct add_errors as (Htype & Hvalue & Hok).
  split; [| split].
  - apply Htype. discriminate.
  - apply Hvalue. reflexivity.
  - apply Hok.
    + reflexivity.
    + intros a b [= <-] [= <-]. reflexivity.
Defined.

(** A right operand that is no accumulator at all is rejected as well. *)
Lemma add_builtin_value (h : heap) (l : accumulator) (v : value) :
  add h l (Val v) = Raise TypeError.
Proof. destruct l; reflexivity. Qed.

(** ** Validation of the ratio in [Fscore] and [Sscore] *)

Lemma int_truediv_exn (a b : Z) (e : exn) :
  int_truediv a b = Raise e -> e = ZeroDivisionError \/ e = OverflowError.
Proof.
  unfold int_truediv. destruct (b =? 0).
  - intros [= <-]. now left.
  - destruct (SFdiv _ _ _ _); intros [= <-]. now right.
Qed.

Lemma try_int_truediv_exn (a b : Z) (e : exn) :
  try_except (int_truediv a b) ZeroDivisionError (Ok INF) = Raise e ->
  e = OverflowError.
Proof.
  destruct (int_truediv a b) as [q | e'] eqn:Hq; [discriminate |].
  destruct (int_truediv_exn _ _ _ Hq) as [-> | ->]; cbn; congruence.
Qed.

Lemma float_leb_zero_not_gt (x : float) :
  (x <=? 0)%float = true -> (0 <? x)%float = false.
Proof.
  rewrite leb_spec, ltb_spec.
  change (Prim2SF 0) with (S754_zero false).
  destruct (Prim2SF x) as [s | s | | s m e]; try destruct s; cbn; congruence.
Qed.

Lemma Fscore_rejects (self : BinaryConfusion.t) (ratio : float) :
  (ratio <=? 0)%float = true ->
  BinaryConfusion.Fscore self ratio = Raise AssertionError.
Proof.
  intros H%float_leb_zero_not_gt. unfold BinaryConfusion.Fscore.
  now rewrite H.
Qed.

Lemma Fscore_accepts (self : BinaryConfusion.t) (ratio : float) :
  (0 <? ratio)%float = true ->
  BinaryConfusion.Fscore self ratio <> Raise AssertionError.
Proof.
  intros H. unfold BinaryConfusion.Fscore, BinaryConfusion.precision,
    BinaryConfusion.recall.
  rewrite H. cbn [negb].
  destruct (try_except (int_truediv _ (_ + BinaryConfusion.fp self)) _ _)
    as [P | e] eqn:HP; cbn [bind].
  2: { apply try_int_truediv_exn in HP. congruence. }
  destruct (try_except (int_truediv _ (_ + BinaryConfusion.fn self)) _ _)
    as [R | e] eqn:HR; cbn [bind].
  2: { apply try_int_truediv_exn in HR. congruence. }
  unfold float_truediv. destruct (_ =? 0)%float; discriminate.
Qed.

(** C2: [Sscore] never reaches its ratio check: whatever [ns_ratio] is
    passed, reading the unbound name [ratio] raises [NameError]. *)
Theorem Sscore_raises_NameError
  (self : BinaryConfusion.t) (ns_ratio : float) :
  BinaryConfusion.Sscore self ns_ratio = Raise NameError.
Proof. reflexivity. Qed.

(** ** Division by zero inside [Fscore] *)

(** C10: a matrix with no true positive but at least one false positive and
    one false negative is not empty, has precision and recall [0.], and
    [Fscore] with ratio 1 raises [ZeroDivisionError] on it. *)
Theorem Fscore_zero_tp (hit : value) (fp fn tn : Z) :
  0 < fp -> 0 < fn -> 0 <= tn ->
  let self := BinaryConfusion.init hit 0 fp fn tn in
  0 < BinaryConfusion.__len__ self /\
  BinaryConfusion.precision self = Ok 0%float /\
  BinaryConfusion.recall self = Ok 0%float /\
  BinaryConfusion.Fscore self 1 = Raise ZeroDivisionError.
Proof.
  intros Hfp Hfn Htn self.
  assert (HP : BinaryConfusion.precision self = Ok 0%float).
  { unfold BinaryConfusion.precision. cbn [BinaryConfusion.tp
      BinaryConfusion.fp self]. now rewrite int_truediv_zero_pos by lia. }
  assert (HR : BinaryConfusion.recall self = Ok 0%float).
  { unfold BinaryConfusion.recall. cbn [BinaryConfusion.tp
      BinaryConfusion.fn self]. now rewrite int_truediv_zero_pos by lia. }
  split; [| split; [| split]]; try assumption.
  - unfold BinaryConfusion.__len__. cbn. lia.
  - unfold BinaryConfusion.Fscore. rewrite HP, HR. reflexivity.
Qed.

Lemma Fscore_zero_tp_witness :
  BinaryConfusion.Fscore (BinaryConfusion.init (VBool true) 0 2 3 0) 1
    = Raise ZeroDivisionError.
Proof.
  apply (Fscore_zero_tp (VBool true) 2 3 0); lia.
Defined.

(** ** Rows, dictionaries and the heap *)

Lemma row_total_dict_set (r : row) (g : value) (k : Z) :
  row_total (dict_set r g (default 0 (dict_get r g) + k)) = row_total r + k.
Proof.
  induction r as [| [g' n] r IH]; cbn.
  - lia.
  - destruct (py_eq g' g); cbn; lia.
Qed.

Lemma deref_insert_eq (h : heap) (a : addr) (r : row) :
  (a < length h)%nat -> deref (<[a := r]> h) a = r.
Proof. intros Ha. unfold deref. now rewrite list_lookup_insert_eq. Qed.

Lemma deref_insert_ne (h : heap) (a a' : addr) (r : row) :
  a <> a' -> deref (<[a := r]> h) a' = deref h a'.
Proof. intros Ha. unfold deref. now rewrite list_lookup_insert_ne. Qed.

Lemma deref_app_l (h h' : heap) (a : addr) :
  (a < length h)%nat -> deref (h ++ h') a = deref h a.
Proof. intros Ha. unfold deref. now rewrite lookup_app_l. Qed.

Lemma row_iadd_length h a g k : length (row_iadd h a g k) = length h.
Proof. unfold row_iadd. now rewrite length_insert. Qed.

Lemma row_iadd_total h a g k :
  (a < length h)%nat ->
  row_total (deref (row_iadd h a g k) a) = row_total (deref h a) + k.
Proof.
  intros Ha. unfold row_iadd. rewrite deref_insert_eq by done.
  apply row_total_dict_set.
Qed.

Lemma row_iadd_other h a a' g k :
  a <> a' -> deref (row_iadd h a g k) a' = deref h a'.
Proof. intros. unfold row_iadd. now apply deref_insert_ne. Qed.

Lemma cells_total_ext (h h' : heap) (m : list (value * addr)) :
  (forall a, a ∈ addrs m -> deref h' a = deref h a) ->
  Confusion.cells_total h' m = Confusion.cells_total h m.
Proof.
  induction m as [| [t a] m IH]; intros Hext; cbn; [done |].
  rewrite Hext by (cbn; left).
  rewrite IH; [done |]. intros a' Ha'. apply Hext. cbn. now right.
Qed.

Lemma cells_total_app h m m' :
  Confusion.cells_total h (m ++ m')
  = Confusion.cells_total h m + Confusion.cells_total h m'.
Proof. induction m as [| [t a] m IH]; cbn; lia. Qed.

Lemma cells_total_bump (h h' : heap) (m : list (value * addr)) (a : addr) (k : Z) :
  NoDup (addrs m) -> a ∈ addrs m ->
  row_total (deref h' a) = row_total (deref h a) + k ->
  (forall a', a' <> a -> deref h' a' = deref h a') ->
  Confusion.cells_total h' m = Confusion.cells_total h m + k.
Proof.
  intros Hnd Hin Ha Hother.
  induction m as [| [t a0] m IH]; cbn in *.
  - now apply elem_of_nil in Hin.
  - apply NoDup_cons in Hnd as [Hnotin Hnd].
    destruct (decide (a0 = a)) as [-> | Hne].
    + rewrite Ha. rewrite (cells_total_ext h h' m); [lia |].
      intros a' Ha'. apply Hother. intros ->. contradiction.
    + rewrite Hother by done. apply elem_of_cons in Hin as [-> | Hin]; [done |].
      rewrite IH by done. lia.
Qed.

Lemma dict_get_addrs (m : list (value * addr)) (t : value) (a : addr) :
  dict_get m t = Some a -> a ∈ addrs m.
Proof.
  induction m as [| [t' a'] m IH]; cbn; [done |].
  destruct (py_eq t' t).
  - intros [= ->]. left.
  - intros H. right. now apply IH.
Qed.

Lemma addrs_app m m' : addrs (m ++ m') = addrs m ++ addrs m'.
Proof. unfold addrs. apply fmap_app. Qed.

Lemma matrix_getitem_spec h m t h1 m1 a :
  Confusion.matrix_getitem h m t = (h1, m1, a) ->
  NoDup (addrs m) -> Forall (fun x => (x < length h)%nat) (addrs m) ->
  NoDup (addrs m1) /\ Forall (fun x => (x < length h1)%nat) (addrs m1) /\
  a ∈ addrs m1 /\ (length h <= length h1)%nat /\
  (forall x, (x < length h)%nat -> deref h1 x = deref h x) /\
  Confusion.cells_total h1 m1 = Confusion.cells_total h m /\
  (forall x, x ∈ addrs m1 ->
     x ∈ addrs m \/ ((length h <= x)%nat /\ deref h1 x = [])).
Proof.
  unfold Confusion.matrix_getitem. intros Hget Hnd Hlt.
  destruct (dict_get m t) as [a0 |] eqn:Hm; injection Hget as <- <- <-.
  - repeat split; auto. now apply dict_get_addrs in Hm.
  - rewrite addrs_app. cbn. repeat split.
    + apply NoDup_app. split; [done |]. split; [| apply NoDup_singleton].
      intros x Hx Hx'. apply list_elem_of_singleton in Hx' as ->.
      rewrite Forall_forall in Hlt. apply Hlt in Hx. lia.
    + rewrite length_app. cbn. apply Forall_app. split.
      * eapply Forall_impl; [exact Hlt |]. cbn. intros; lia.
      * apply Forall_singleton. lia.
    + apply elem_of_app. right. left.
    + rewrite length_app. lia.
    + intros x Hx. now apply deref_app_l.
    + rewrite cells_total_app. cbn.
      unfold deref at 1. rewrite list_lookup_middle by done. cbn.
      rewrite (cells_total_ext h (h ++ [[]]) m); [lia |].
      intros x Hx. apply deref_app_l.
      rewrite Forall_forall in Hlt. now apply Hlt.
    + intros x [Hx | Hx]%elem_of_app; [now left |].
      apply list_elem_of_singleton in Hx as ->. right. split; [lia |].
      unfold deref. now rewrite list_lookup_middle.
Qed.

Lemma update_spec h c truth guess k h' c' :
  Confusion.update (h, c) truth guess k = (h', c') ->
  wf h c ->
  wf h' c' /\
  Confusion.cells_total h' (Confusion.matrix c')
  = Confusion.cells_total h (Confusion.matrix c) + k /\
  Confusion.correct c' + Confusion.incorrect c'
  = Confusion.correct c + Confusion.incorrect c + 1.
Proof.
  unfold Confusion.update. intros Hupd [Hnd Hlt].
  destruct (Confusion.matrix_getitem h (Confusion.matrix c) truth)
    as [[h1 m1] a] eqn:Hget.
  destruct (matrix_getitem_spec _ _ _ _ _ _ Hget Hnd Hlt)
    as (Hnd1 & Hlt1 & Ha & Hlen & Hframe & Htot & Hfresh).
  assert (Ha' : (a < length h1)%nat).
  { rewrite Forall_forall in Hlt1. now apply Hlt1. }
  assert (Hcells : Confusion.cells_total (row_iadd h1 a guess k) m1
                   = Confusion.cells_total h (Confusion.matrix c) + k).
  { rewrite <- Htot. apply cells_total_bump with (a := a); auto.
    - now apply row_iadd_total.
    - intros a' Hne. now apply row_iadd_other. }
  destruct (py_eq truth guess); injection Hupd as <- <-; cbn;
    (split; [split; [done | now rewrite row_iadd_length] |]);
    (split; [done | lia]).
Qed.

Lemma add_row_spec (gc : row) (h : heap) (ar : addr) :
  (ar < length h)%nat ->
  length (add_row h ar gc) = length h /\
  row_total (deref (add_row h ar gc) ar) = row_total (deref h ar) + row_total gc /\
  (forall a', a' <> ar -> deref (add_row h ar gc) a' = deref h a').
Proof.
  unfold add_row. revert h.
  induction gc as [| [g n] gc IH]; intros h Har; cbn.
  - repeat split; auto. lia.
  - destruct (IH (row_iadd h ar g n)) as (Hlen & Htot & Hother).
    { now rewrite row_iadd_length. }
    rewrite Hlen, row_iadd_length, Htot, row_iadd_total by done.
    repeat split; [lia |].
    intros a' Hne. rewrite Hother by done. now apply row_iadd_other.
Qed.

Lemma add_rows_spec (bm : list (value * addr)) :
  forall h m h' m',
    add_rows bm (h, m) = (h', m') ->
    NoDup (addrs m) -> Forall (fun x => (x < length h)%nat) (addrs m) ->
    Forall (fun x => (x < length h)%nat) (addrs bm) ->
    (forall x, x ∈ addrs bm -> x ∉ addrs m) ->
    NoDup (addrs m') /\ Forall (fun x => (x < length h')%nat) (addrs m') /\
    Confusion.cells_total h' m'
    = Confusion.cells_total h m + Confusion.cells_total h bm.
Proof.
  unfold add_rows.
  induction bm as [| [t ab] bm IH]; intros h m h' m' Hrun Hnd Hlt Hb Hsep.
  - cbn in Hrun. injection Hrun as <- <-. cbn. repeat split; auto. lia.
  - cbn [fold_left fst snd] in Hrun.
    destruct (Confusion.matrix_getitem h m t) as [[h1 m1] ar] eqn:Hget.
    destruct (matrix_getitem_spec _ _ _ _ _ _ Hget Hnd Hlt)
      as (Hnd1 & Hlt1 & Har & Hlen & Hframe & Htot & Hfresh).
    assert (Har' : (ar < length h1)%nat).
    { rewrite Forall_forall in Hlt1. now apply Hlt1. }
    destruct (add_row_spec (deref h ab) h1 ar Har') as (Hlen2 & Htot2 & Hother2).
    cbn in Hb. apply Forall_cons in Hb as [Hab Hb].
    assert (Hsep1 : forall x, x ∈ addrs ((t, ab) :: bm) -> x ∉ addrs m1).
    { intros x Hx Hx1. destruct (Hfresh x Hx1) as [Hm | [Hge _]].
      - now apply (Hsep x).
      - assert ((x < length h)%nat); [| lia].
        cbn in Hx. apply elem_of_cons in Hx as [-> | Hx]; [done |].
        rewrite Forall_forall in Hb. now apply Hb. }
    apply IH in Hrun as (Hnd' & Hlt' & Htot').
    + repeat split; auto. rewrite Htot'. cbn.
      rewrite (cells_total_bump h1 _ m1 ar (row_total (deref h ab)));
        auto.
      rewrite (cells_total_ext h _ bm); [lia |].
      intros x Hx. rewrite Hother2.
      * apply Hframe. rewrite Forall_forall in Hb. now apply Hb.
      * intros ->. apply (Hsep1 ar); [cbn; now right | done].
    + done.
    + now rewrite Hlen2.
    + rewrite Hlen2. eapply Forall_impl; [exact Hb |]. cbn. intros; lia.
    + intros x Hx. apply Hsep1. cbn. now right.
Qed.

Lemma built_sound h c : built h c -> wf h c /\ count_inv h c.
Proof.
  induction 1 as [h | h c truth guess Hb [Hwf Hinv]
                 | h a b h' r Ha [Hwfa Hinva] Hb [Hwfb Hinvb] Hsep Hadd
                 | h h' c Hb [Hwf Hinv] Hsame].
  - split; [split; cbn; constructor | reflexivity].
  - unfold Confusion.update1.
    destruct (Confusion.update (h, c) truth guess 1) as [h' c'] eqn:Hupd.
    destruct (update_spec _ _ _ _ _ _ _ Hupd Hwf) as (Hwf' & Hcells & Hcnt).
    split; [done |]. unfold count_inv in *. cbn. lia.
  - cbn in Hadd.
    destruct (add_rows (Confusion.matrix b) (h, Confusion.matrix a))
      as [h1 m1] eqn:Hrows.
    injection Hadd as <- <-.
    destruct Hwfa as [Hnda Hlta]. destruct Hwfb as [Hndb Hltb].
    destruct (add_rows_spec _ _ _ _ _ Hrows Hnda Hlta Hltb Hsep)
      as (Hnd' & Hlt' & Htot).
    split; [split; done |]. unfold count_inv in *. cbn. lia.
  - destruct Hwf as [Hnd Hlt]. split; [split; [done |] |].
    + rewrite Forall_forall in Hlt |- *. intros a Ha.
      apply lookup_lt_is_Some. rewrite Hsame by done.
      apply lookup_lt_is_Some. now apply Hlt.
    + unfold count_inv in *. rewrite Hinv. symmetry.
      apply cells_total_ext. intros a Ha. unfold deref. now rewrite Hsame.
Qed.

(** ** The count invariant of [Confusion] *)


(** With weight 1 only, adding a matrix to itself writes into the rows of
    the operand and breaks the operand's invariant; a further [+] that takes
    this stale operand passes the defect on to its result. *)
Lemma shared_rows_break_count_inv :
  let a := Confusion.update1 ([], Confusion.init) (VStr "A") (VStr "A") in
  exists h1 c h2 d,
    Confusion_add a.1 a.2 (Obj (Conf a.2)) = Ok (h1, c) /\
    Confusion_add h1 c (Obj (Conf a.2)) = Ok (h2, d) /\
    ~ count_inv h1 a.2 /\ ~ count_inv h2 d.
Proof.
  cbn. do 4 eexists. split; [reflexivity |]. split; [reflexivity |].
  unfold count_inv. cbn. lia.
Qed.

(** ** Aliasing in [Confusion.__add__] *)

(** C3: with [a] and [b] each holding one observation ("A", "A"), the
    result of [a + b] stores its row for "A" at the address of [a]'s row, and
    the cell [a.matrix["A"]["A"]] reads 2 after the addition instead of 1. *)
Theorem Confusion_add_shares_rows :
  let a := Confusion.update1 ([], Confusion.init) (VStr "A") (VStr "A") in
  let b := Confusion.update1 (a.1, Confusion.init) (VStr "A") (VStr "A") in
  exists h' r,
    Confusion_add b.1 a.2 (Obj (Conf b.2)) = Ok (h', r) /\
    dict_get (Confusion.matrix r) (VStr "A")
    = dict_get (Confusion.matrix a.2) (VStr "A") /\
    Confusion.cell b.1 a.2 (VStr "A") (VStr "A") = 1 /\
    Confusion.cell h' a.2 (VStr "A") (VStr "A") = 2.
Proof. cbn. do 2 eexists. repeat split. Qed.

(** The other two classes hold integers only: [+] builds a new record from
    the counts and has nothing to share. *)
Lemma Accuracy_add_counts (a b : Accuracy.t) :
  exists r, Accuracy_add a (Obj (Acc b)) = Ok r /\
    Accuracy.correct r = Accuracy.correct a + Accuracy.correct b /\
    Accuracy.incorrect r = Accuracy.incorrect a + Accuracy.incorrect b.
Proof. eexists. repeat split. Qed.

Lemma BinaryConfusion_add_counts (a b : BinaryConfusion.t) :
  py_eq (BinaryConfusion.hit a) (BinaryConfusion.hit b) = true ->
  exists r, BinaryConfusion_add a (Obj (Bin b)) = Ok r /\
    BinaryConfusion.hit r = BinaryConfusion.hit a /\
    BinaryConfusion.tp r = BinaryConfusion.tp a + BinaryConfusion.tp b /\
    BinaryConfusion.fp r = BinaryConfusion.fp a + BinaryConfusion.fp b /\
    BinaryConfusion.fn r = BinaryConfusion.fn a + BinaryConfusion.fn b /\
    BinaryConfusion.tn r = BinaryConfusion.tn a + BinaryConfusion.tn b.
Proof.
  intros Hhit. cbn. rewrite Hhit. cbn. eexists. repeat split.
Qed.

(** ** Commutativity and associativity of [+] *)

Lemma Accuracy_add_comm (a b : Accuracy.t) :
  Accuracy_add a (Obj (Acc b)) = Accuracy_add b (Obj (Acc a)).
Proof. cbn. f_equal. f_equal; lia. Qed.

Lemma Accuracy_add_assoc (a b c : Accuracy.t) :
  (ab <- Accuracy_add a (Obj (Acc b)) ;; Accuracy_add ab (Obj (Acc c)))
  = (bc <- Accuracy_add b (Obj (Acc c)) ;; Accuracy_add a (Obj (Acc bc))).
Proof. cbn. f_equal. f_equal; lia. Qed.

Lemma py_eq_sym (a b : value) : py_eq a b = py_eq b a.
Proof.
  destruct a as [| x | x | x], b as [| y | y | y]; cbn;
    auto using Z.eqb_sym, String.eqb_sym.
Qed.

Lemma py_eq_trans (a b c : value) :
  py_eq a b = true -> py_eq b c = true -> py_eq a c = true.
Proof.
  destruct a as [| x | x | x], b as [| y | y | y], c as [| z | z | z]; cbn;
    try discriminate; auto;
    rewrite ?Z.eqb_eq, ?String.eqb_eq; congruence.
Qed.

Lemma BinaryConfusion_add_comm (a b : BinaryConfusion.t) :
  py_eq (BinaryConfusion.hit a) (BinaryConfusion.hit b) = true ->
  exists x y,
    BinaryConfusion_add a (Obj (Bin b)) = Ok x /\
    BinaryConfusion_add b (Obj (Bin a)) = Ok y /\
    cells x = cells y.
Proof.
  intros Hab. cbn. rewrite (py_eq_sym (BinaryConfusion.hit b)), Hab. cbn.
  do 2 eexists. split; [reflexivity |]. split; [reflexivity |].
  unfold cells. cbn.
  repeat match goal with |- (_, _) = (_, _) => f_equal end; lia.
Qed.

Lemma BinaryConfusion_add_assoc (a b c : BinaryConfusion.t) :
  py_eq (BinaryConfusion.hit a) (BinaryConfusion.hit b) = true ->
  py_eq (BinaryConfusion.hit b) (BinaryConfusion.hit c) = true ->
  exists x y,
    (ab <- BinaryConfusion_add a (Obj (Bin b)) ;;
     BinaryConfusion_add ab (Obj (Bin c))) = Ok x /\
    (bc <- BinaryConfusion_add b (Obj (Bin c)) ;;
     BinaryConfusion_add a (Obj (Bin bc))) = Ok y /\
    cells x = cells y.
Proof.
  intros Hab Hbc. cbn. rewrite Hab, Hbc. cbn.
  rewrite (py_eq_trans _ _ _ Hab Hbc), Hab. cbn.
  do 2 eexists. split; [reflexivity |]. split; [reflexivity |].
  unfold cells. cbn.
  repeat match goal with |- (_, _) = (_, _) => f_equal end; lia.
Qed.

(** C8: with [a] and [b] each holding one observation ("A", "A"), the cell
    ("A", "A") of [a + b] is 2 but that of [b + a], computed next, is 3:
    the first addition has written into the row of [a]. *)
Theorem Confusion_add_not_commutative :
  let a := Confusion.update1 ([], Confusion.init) (VStr "A") (VStr "A") in
  let b := Confusion.update1 (a.1, Confusion.init) (VStr "A") (VStr "A") in
  exists h1 x h2 y,
    Confusion_add b.1 a.2 (Obj (Conf b.2)) = Ok (h1, x) /\
    Confusion_add h1 b.2 (Obj (Conf a.2)) = Ok (h2, y) /\
    Confusion.cell h2 x (VStr "A") (VStr "A") = 2 /\
    Confusion.cell h2 y (VStr "A") (VStr "A") = 3.
Proof. cbn. do 4 eexists. repeat split. Qed.

(** ** Floating-point division *)

Lemma SFdiv_self (s : bool) (m : positive) (e : Z) :
  SFdiv prec emax (S754_finite s m e) (S754_finite s m e)
  = S754_finite false 4503599627370496 (-52).
Proof.
  unfold SFdiv, SFdiv_core_binary.
  rewrite !Z.sub_diag.
  change (Z.min (fexp prec emax 0) 0) with (-53).
  change (0 - -53) with 53.
  cbv iota beta.
  assert (Hq : Z.div_eucl (Z.shiftl (Z.pos m) 53) (Z.pos m) = (2 ^ 53, 0)).
  { rewrite Z.shiftl_mul_pow2 by lia.
    pose proof (Z.div_eucl_eq (Z.pos m * 2 ^ 53) (Z.pos m) ltac:(lia)) as Heq.
    pose proof (Z.mod_pos_bound (Z.pos m * 2 ^ 53) (Z.pos m) ltac:(lia)) as Hb.
    unfold Z.modulo in Hb.
    destruct (Z.div_eucl (Z.pos m * 2 ^ 53) (Z.pos m)) as [q r].
    assert (r = 0 /\ q = 2 ^ 53) as [-> ->]; [| reflexivity].
    assert (Z.pos m * (2 ^ 53 - q) = r) by lia.
    assert (2 ^ 53 - q = 0) by nia. split; lia. }
  rewrite Hq. cbv iota beta.
  assert (Hloc : new_location (Z.pos m) 0 = loc_Exact).
  { unfold new_location. destruct (Z.even (Z.pos m)); reflexivity. }
  rewrite Hloc.
  destruct s; reflexivity.
Qed.

Lemma int_truediv_self (n : Z) : n <> 0 -> int_truediv n n = Ok 1%float.
Proof.
  intros Hn. unfold int_truediv.
  destruct (Z.eqb_spec n 0) as [-> | _]; [done |].
  destruct n as [| p | p]; [done | |]; cbn [Z2SF]; now rewrite SFdiv_self.
Qed.

Lemma is_finite_nonzero_spec (x : float) :
  is_finite_nonzero x = true ->
  exists s m e, Prim2SF x = S754_finite s m e.
Proof.
  unfold is_finite_nonzero. rewrite classify_spec.
  destruct (Prim2SF x) as [s | s | | s m e]; try destruct s; cbn;
    try discriminate; eauto.
Qed.

Lemma float_truediv_self (x : float) :
  is_finite_nonzero x = true -> float_truediv x x = Ok 1%float.
Proof.
  intros (s & m & e & Hx)%is_finite_nonzero_spec.
  unfold float_truediv.
  rewrite FloatAxioms.eqb_spec, Hx.
  change (Prim2SF 0) with (S754_zero false).
  replace (SFeqb (S754_finite s m e) (S754_zero false)) with false
    by now destruct s.
  f_equal. apply Prim2SF_inj. rewrite div_spec, Hx.
  unfold SF64div. now rewrite SFdiv_self.
Qed.

Lemma float_truediv_zero (x y : float) :
  (y =? 0)%float = true -> float_truediv x y = Raise ZeroDivisionError.
Proof. intros H. unfold float_truediv. now rewrite H. Qed.

(** *** Quotients below one do not overflow *)

Lemma digits2_pos_size (p : positive) : digits2_pos p = Pos.size p.
Proof. induction p; cbn; congruence. Qed.

Lemma Zdigits2_log2 (p : positive) : Zdigits2 (Z.pos p) = Z.log2 (Z.pos p) + 1.
Proof.
  cbn [Zdigits2]. rewrite digits2_pos_size.
  destruct p; cbn [Pos.size Z.log2]; lia.
Qed.

Lemma Zdigits2_nonneg (m : Z) : 0 <= Zdigits2 m.
Proof. destruct m; cbn; lia. Qed.

Lemma Zdigits2_le_pow2 (m k : Z) : 0 <= m -> 0 <= k -> m < 2 ^ k -> Zdigits2 m <= k.
Proof.
  intros Hm Hk Hlt. destruct m as [| p | p]; [cbn; lia | | lia].
  rewrite Zdigits2_log2.
  assert (Z.log2 (Z.pos p) < k); [| lia].
  apply Z.log2_lt_pow2; lia.
Qed.

Lemma Zdigits2_mono (m n : Z) : 0 <= m <= n -> Zdigits2 m <= Zdigits2 n.
Proof.
  intros [Hm Hmn]. destruct m as [| p | p]; [apply Zdigits2_nonneg | | lia].
  destruct n as [| q | q]; try lia.
  rewrite !Zdigits2_log2. apply Z.log2_le_mono in Hmn. lia.
Qed.

Lemma Zdigits2_succ (m : Z) : 0 <= m -> Zdigits2 (m + 1) <= Zdigits2 m + 1.
Proof.
  intros Hm. assert (Hk := Zdigits2_nonneg m).
  apply Zdigits2_le_pow2; [lia | lia |].
  destruct m as [| p | p]; [cbn; lia | | lia].
  rewrite Zdigits2_log2 in *.
  pose proof (Z.log2_spec (Z.pos p) ltac:(lia)) as [_ Hup].
  replace (Z.succ (Z.log2 (Z.pos p))) with (Z.log2 (Z.pos p) + 1) in Hup by lia.
  rewrite (Z.pow_add_r 2 (_ + 1) 1) by lia. lia.
Qed.

Lemma iter_pos_invariant {T} (P : T -> Prop) (f : T -> T) :
  (forall x, P x -> P (f x)) ->
  forall (p : positive) (x : T), P x -> P (SpecFloat.iter_pos f p x).
Proof.
  intros Hf. induction p as [p IH | p IH |]; intros x Hx; cbn; auto.
Qed.

Lemma shr_1_bounds (M : Z) (r : shr_record) :
  0 <= shr_m r <= M -> 0 <= shr_m (shr_1 r) <= M.
Proof.
  destruct r as [m rb sb]. cbn [shr_m]. intros Hm.
  destruct m as [| [p | p |] | p]; cbn; lia.
Qed.

Lemma shr_m_of_loc (m : Z) (l : location) : shr_m (shr_record_of_loc m l) = m.
Proof. destruct l as [| []]; reflexivity. Qed.

Lemma shr_fexp_bounds (m e : Z) (l : location) (r : shr_record) (e' : Z) :
  shr_fexp prec emax m e l = (r, e') -> 0 <= m ->
  0 <= shr_m r <= m /\ (e' = e \/ e' = fexp prec emax (Zdigits2 m + e)).
Proof.
  unfold shr_fexp, shr. intros Hs Hm.
  destruct (fexp prec emax (Zdigits2 m + e) - e) as [| p | p] eqn:Hn;
    injection Hs as <- <-.
  - rewrite shr_m_of_loc. split; [lia | now left].
  - split; [| right; lia].
    apply (iter_pos_invariant (fun r => 0 <= shr_m r <= m)).
    + intros x. apply shr_1_bounds.
    + rewrite shr_m_of_loc. lia.
  - rewrite shr_m_of_loc. split; [lia | now left].
Qed.

Lemma round_nearest_even_bounds (m : Z) (l : location) :
  m <= round_nearest_even m l <= m + 1.
Proof. destruct l as [| []]; cbn; try destruct (Z.even m); lia. Qed.

Lemma binary_round_aux_finite (sx : bool) (mx ex : Z) (lx : location) :
  0 <= mx -> -1074 <= ex <= 0 -> Zdigits2 mx + ex <= 1 ->
  forall s, binary_round_aux prec emax sx mx ex lx <> S754_infinity s.
Proof.
  intros Hm He Hd s. unfold binary_round_aux.
  destruct (shr_fexp prec emax mx ex lx) as [r1 e1] eqn:H1.
  destruct (shr_fexp_bounds _ _ _ _ _ H1 Hm) as [Hr1 He1].
  set (m1 := round_nearest_even (shr_m r1) (loc_of_shr_record r1)).
  assert (Hm1 := round_nearest_even_bounds (shr_m r1) (loc_of_shr_record r1)).
  fold m1 in Hm1.
  destruct (shr_fexp prec emax m1 e1 loc_Exact) as [r2 e2] eqn:H2.
  destruct (shr_fexp_bounds _ _ _ _ _ H2 ltac:(lia)) as [Hr2 He2].
  destruct (shr_m r2) as [| p | p]; try discriminate.
  assert (Hle : e2 <= emax - prec); [| now apply Z.leb_le in Hle as ->].
  assert (Hd1 : Zdigits2 m1 <= Zdigits2 mx + 1).
  { transitivity (Zdigits2 (shr_m r1 + 1)); [apply Zdigits2_mono; lia |].
    transitivity (Zdigits2 (shr_m r1) + 1); [apply Zdigits2_succ; lia |].
    assert (Zdigits2 (shr_m r1) <= Zdigits2 mx); [| lia].
    apply Zdigits2_mono. lia. }
  assert (H0 := Zdigits2_nonneg mx).
  unfold fexp, SpecFloat.emin in *. change prec with 53 in *.
  change emax with 1024 in *. lia.
Qed.

Lemma SFdiv_le_finite (a b : positive) :
  (a <= b)%positive ->
  forall s, SFdiv prec emax (S754_finite false a 0) (S754_finite false b 0)
            <> S754_infinity s.
Proof.
  intros Hab s. unfold SFdiv, SFdiv_core_binary.
  rewrite !Z.add_0_r, Z.sub_diag.
  set (e' := Z.min (fexp prec emax (Zdigits2 (Z.pos a) - Zdigits2 (Z.pos b))) 0).
  assert (He' : -1074 <= e' <= 0).
  { subst e'. unfold fexp, SpecFloat.emin. change prec with 53.
    change emax with 1024. lia. }
  set (m' := match 0 - e' with
             | 0 => Z.pos a
             | Z.pos _ => Z.shiftl (Z.pos a) (0 - e')
             | Z.neg _ => 0
             end).
  assert (Hm' : m' = Z.pos a * 2 ^ (- e')).
  { subst m'. destruct (0 - e') as [| p | p] eqn:Hs; try lia.
    - replace (- e') with 0 by lia. lia.
    - rewrite Z.shiftl_mul_pow2 by lia. f_equal. f_equal. lia. }
  pose proof (Z.div_eucl_eq m' (Z.pos b) ltac:(lia)) as Heq.
  pose proof (Z.mod_pos_bound m' (Z.pos b) ltac:(lia)) as Hb.
  unfold Z.modulo in Hb.
  destruct (Z.div_eucl m' (Z.pos b)) as [q r].
  assert (H2 : 0 < 2 ^ (- e')) by (apply Z.pow_pos_nonneg; lia).
  assert (Hq : 0 <= q <= 2 ^ (- e')) by nia.
  apply binary_round_aux_finite; [lia | lia |].
  assert (Zdigits2 q <= - e' + 1); [| lia].
  apply Zdigits2_le_pow2; [lia | lia |].
  rewrite Z.pow_add_r by lia. lia.
Qed.

Lemma int_truediv_le_ok (a b : Z) :
  0 <= a <= b -> 0 < b -> exists q, int_truediv a b = Ok q.
Proof.
  intros Ha Hb. unfold int_truediv.
  destruct (Z.eqb_spec b 0) as [-> | _]; [lia |].
  destruct b as [| pb | pb]; try lia.
  destruct a as [| pa | pa]; try lia.
  - cbn. eauto.
  - cbn [Z2SF].
    pose proof (SFdiv_le_finite pa pb ltac:(lia)) as Hfin.
    destruct (SFdiv prec emax _ _) as [s | s | | s m e]; eauto.
    now destruct (Hfin s).
Qed.

(** ** Kappa under perfect agreement *)

Lemma py_eq_py_bool (t g : value) : py_eq t g = true -> py_bool t = py_bool g.
Proof.
  destruct t as [| x | x | x], g as [| y | y | y]; cbn; try discriminate;
    auto; rewrite ?Z.eqb_eq, ?String.eqb_eq; try congruence.
  - now destruct x, y.
  - intros <-. now destruct x.
  - intros ->. now destruct y.
Qed.

Lemma update_counts_agree h c truth guess k :
  py_eq truth guess = true ->
  Confusion.correct (Confusion.update (h, c) truth guess k).2
  = Confusion.correct c + 1 /\
  Confusion.incorrect (Confusion.update (h, c) truth guess k).2
  = Confusion.incorrect c.
Proof.
  intros Heq. unfold Confusion.update.
  destruct (Confusion.matrix_getitem _ _ _) as [[h1 m1] a].
  now rewrite Heq.
Qed.

Lemma update_rows_nonneg h c truth guess k h' c' :
  Confusion.update (h, c) truth guess k = (h', c') ->
  wf h c -> 0 <= k -> rows_nonneg h (Confusion.matrix c) ->
  rows_nonneg h' (Confusion.matrix c').
Proof.
  unfold Confusion.update, rows_nonneg. intros Hupd [Hnd Hlt] Hk Hrows.
  destruct (Confusion.matrix_getitem h (Confusion.matrix c) truth)
    as [[h1 m1] a] eqn:Hget.
  destruct (matrix_getitem_spec _ _ _ _ _ _ Hget Hnd Hlt)
    as (Hnd1 & Hlt1 & Ha & Hlen & Hframe & Htot & Hfresh).
  assert (Hrows1 : Forall (fun x => 0 <= row_total (deref h1 x)) (addrs m1)).
  { rewrite Forall_forall in Hrows, Hlt |- *. intros x Hx.
    destruct (Hfresh x Hx) as [Hm | [_ ->]]; [| done].
    rewrite Hframe by now apply Hlt. now apply Hrows. }
  assert (Hgoal : Forall (fun x => 0 <= row_total (deref (row_iadd h1 a guess k) x))
                    (addrs m1)).
  { rewrite Forall_forall in Hrows1, Hlt1 |- *. intros x Hx.
    destruct (decide (x = a)) as [-> | Hne].
    - rewrite row_iadd_total by now apply Hlt1.
      specialize (Hrows1 a Hx). lia.
    - rewrite row_iadd_other by done. now apply Hrows1. }
  destruct (py_eq truth guess); injection Hupd as <- <-; exact Hgoal.
Qed.

Lemma perfect_updates (obs : list (value * value)) :
  forall st : heap * Confusion.t,
    perfect obs -> built st.1 st.2 -> rows_nonneg st.1 (Confusion.matrix st.2) ->
    let st' := fold_left (fun s tg => Confusion.update1 s tg.1 tg.2) obs st in
    built st'.1 st'.2 /\ rows_nonneg st'.1 (Confusion.matrix st'.2) /\
    Confusion.correct st'.2 = Confusion.correct st.2 + Z.of_nat (length obs) /\
    Confusion.incorrect st'.2 = Confusion.incorrect st.2.
Proof.
  induction obs as [| [t g] obs IH]; intros [h c] Hp Hb Hrows; cbn [fold_left].
  - cbn. repeat split; auto. lia.
  - apply Forall_cons in Hp as [Htg Hp]. cbn in Htg, Hb, Hrows.
    cbn [fst snd].
    destruct (update_counts_agree h c t g 1 Htg) as [Hc Hi].
    fold (Confusion.update1 (h, c) t g) in Hc, Hi.
    destruct (built_sound _ _ Hb) as [Hwf _].
    pose proof (built_update h c t g Hb) as Hb'.
    destruct (Confusion.update1 (h, c) t g) as [h' c'] eqn:Hupd.
    assert (Hrows' : rows_nonneg h' (Confusion.matrix c')).
    { eapply update_rows_nonneg; [exact Hupd | done | lia | done]. }
    destruct (IH (h', c') Hp Hb' Hrows') as (Hb'' & Hr'' & Hc'' & Hi'').
    cbn in Hc, Hi, Hc'', Hi'' |- *.
    repeat split; auto; lia.
Qed.

Lemma cells_total_nonneg h m : rows_nonneg h m -> 0 <= Confusion.cells_total h m.
Proof.
  unfold rows_nonneg. induction m as [| [t a] m IH]; cbn; [lia |].
  intros [Ha Hm]%Forall_cons. specialize (IH Hm). lia.
Qed.

Lemma row_le_cells_total h m a :
  rows_nonneg h m -> a ∈ addrs m ->
  row_total (deref h a) <= Confusion.cells_total h m.
Proof.
  unfold rows_nonneg. induction m as [| [t a0] m IH]; cbn.
  - intros _ Hin. now apply elem_of_nil in Hin.
  - intros [Ha Hm]%Forall_cons [-> | Hin]%elem_of_cons.
    + pose proof (cells_total_nonneg h m Hm). lia.
    + specialize (IH Hm Hin). lia.
Qed.

Lemma Kappa_Pe_fold_ok (h : heap) (total : Z) (m : list (value * addr)) :
  0 < total ->
  Forall (fun a => 0 <= row_total (deref h a) <= total) (addrs m) ->
  forall Pe0 : float, exists Pe,
    fold_left
      (fun acc ta =>
         Pe <- acc ;;
         Pe_i <- int_truediv (row_total (deref h ta.2)) total ;;
         Ok (Pe + Pe_i * Pe_i)%float)
      m (Ok Pe0) = Ok Pe.
Proof.
  intros Htotal. induction m as [| [t a] m IH]; intros Hrows Pe0; cbn.
  - eauto.
  - cbn in Hrows. apply Forall_cons in Hrows as [Ha Hm].
    destruct (int_truediv_le_ok (row_total (deref h a)) total Ha Htotal)
      as [q ->].
    cbn. apply IH, Hm.
Qed.

Lemma Confusion_Kappa_Pe_ok (h : heap) (c : Confusion.t) :
  rows_nonneg h (Confusion.matrix c) ->
  0 < Confusion.cells_total h (Confusion.matrix c) ->
  exists Pe, Confusion.Kappa_Pe h c = Ok Pe.
Proof.
  intros Hrows Hpos. unfold Confusion.Kappa_Pe.
  apply Kappa_Pe_fold_ok; [done |].
  apply Forall_forall. intros a Ha. split.
  - unfold rows_nonneg in Hrows. rewrite Forall_forall in Hrows. auto.
  - now apply row_le_cells_total.
Qed.

Lemma perfect_binary_updates (obs : list (value * value)) :
  forall s : BinaryConfusion.t,
    perfect obs ->
    let s' := fold_left (fun s tg => BinaryConfusion.update s tg.1 tg.2) obs s in
    BinaryConfusion.fp s' = BinaryConfusion.fp s /\
    BinaryConfusion.fn s' = BinaryConfusion.fn s /\
    BinaryConfusion.tp s <= BinaryConfusion.tp s' /\
    BinaryConfusion.tn s <= BinaryConfusion.tn s' /\
    BinaryConfusion.tp s' + BinaryConfusion.tn s'
    = BinaryConfusion.tp s + BinaryConfusion.tn s + Z.of_nat (length obs).
Proof.
  induction obs as [| [t g] obs IH]; intros s Hp; cbn [fold_left].
  - cbn. repeat split; lia.
  - apply Forall_cons in Hp as [Htg Hp]. cbn in Htg. cbn [fst snd].
    specialize (IH (BinaryConfusion.update s t g) Hp). cbn zeta in IH.
    destruct IH as (Hfp & Hfn & Htp & Htn & Hsum).
    assert (Hstep :
      BinaryConfusion.fp (BinaryConfusion.update s t g) = BinaryConfusion.fp s /\
      BinaryConfusion.fn (BinaryConfusion.update s t g) = BinaryConfusion.fn s /\
      BinaryConfusion.tp s <= BinaryConfusion.tp (BinaryConfusion.update s t g) /\
      BinaryConfusion.tn s <= BinaryConfusion.tn (BinaryConfusion.update s t g) /\
      BinaryConfusion.tp (BinaryConfusion.update s t g)
      + BinaryConfusion.tn (BinaryConfusion.update s t g)
      = BinaryConfusion.tp s + BinaryConfusion.tn s + 1).
    { unfold BinaryConfusion.update. rewrite (py_eq_py_bool t g Htg).
      destruct (py_bool g); cbn; repeat split; lia. }
    cbn [length]. lia.
Qed.

Lemma py_len_ok (n : Z) : 0 <= n <= sys_maxsize -> py_len n = Ok n.
Proof.
  intros Hn. unfold py_len.
  destruct (Z.ltb_spec n 0); [lia |].
  destruct (Z.ltb_spec sys_maxsize n); [lia | reflexivity].
Qed.

Lemma Confusion_Kappa_perfect (h : heap) (c : Confusion.t) (Pe : float) :
  Confusion.Kappa_Pe h c = Ok Pe ->
  0 < Confusion.correct c -> Confusion.incorrect c = 0 ->
  Confusion.Kappa h c = float_truediv (1 - Pe) (1 - Pe).
Proof.
  intros HPe Hc Hi. unfold Confusion.Kappa, Confusion.accuracy.
  rewrite HPe, Hi, Z.add_0_r, int_truediv_self by lia. reflexivity.
Qed.

Lemma BinaryConfusion_Kappa_perfect (b : BinaryConfusion.t) :
  BinaryConfusion.fp b = 0 -> BinaryConfusion.fn b = 0 ->
  0 <= BinaryConfusion.tp b -> 0 <= BinaryConfusion.tn b ->
  0 < BinaryConfusion.tp b + BinaryConfusion.tn b <= sys_maxsize ->
  exists Pe,
    BinaryConfusion.Kappa_Pe b = Ok Pe /\
    BinaryConfusion.Kappa b = float_truediv (1 - Pe) (1 - Pe).
Proof.
  intros Hfp Hfn Htp Htn Hn.
  set (n := BinaryConfusion.tp b + BinaryConfusion.tn b) in *.
  assert (Hlen : py_len (BinaryConfusion.__len__ b) = Ok n).
  { unfold BinaryConfusion.__len__. rewrite Hfp, Hfn.
    replace (_ + 0 + 0 + _) with n by (subst n; lia).
    apply py_len_ok. lia. }
  destruct (int_truediv_le_ok (BinaryConfusion.tp b) n) as [Px HPx];
    [subst n; lia | lia |].
  assert (HPe : BinaryConfusion.Kappa_Pe b
                = Ok ((Px * Px) + ((1 - Px) * (1 - Px)))%float).
  { unfold BinaryConfusion.Kappa_Pe.
    rewrite Hlen, Hfp, Hfn, Z.add_0_r. cbn [bind]. now rewrite HPx. }
  eexists. split; [exact HPe |].
  unfold BinaryConfusion.Kappa, BinaryConfusion.accuracy.
  rewrite Hlen, HPe. cbn [bind].
  destruct (Z.eqb_spec n 0) as [? | _]; [lia |].
  fold n. rewrite int_truediv_self by lia. reflexivity.
Qed.

(** C9, as amended: after a non-empty sequence of observations in which
    truth always equals guess, the chance agreement [Pe] is computed without
    error and [Kappa] is [(1. - Pe) / (1. - Pe)]: exactly [1.0] when
    [1. - Pe] is a non-zero finite float, and a [ZeroDivisionError] when
    [1. - Pe] is zero.  This holds for [Confusion] and, for at most
    [sys.maxsize] observations, for [BinaryConfusion]. *)
Theorem Kappa_of_perfect_agreement (truths guesses : list value) :
  zip truths guesses <> [] -> perfect (zip truths guesses) ->
  (let st :=
     batch_update Confusion.update1 ([], Confusion.init) truths guesses in
   exists Pe,
     Confusion.Kappa_Pe st.1 st.2 = Ok Pe /\
     (is_finite_nonzero (1 - Pe) = true ->
      Confusion.Kappa st.1 st.2 = Ok 1%float) /\
     ((1 - Pe =? 0)%float = true ->
      Confusion.Kappa st.1 st.2 = Raise ZeroDivisionError)) /\
  (Z.of_nat (length (zip truths guesses)) <= sys_maxsize ->
   let b :=
     batch_update BinaryConfusion.update BinaryConfusion.default
       truths guesses in
   exists Pe,
     BinaryConfusion.Kappa_Pe b = Ok Pe /\
     (is_finite_nonzero (1 - Pe) = true ->
      BinaryConfusion.Kappa b = Ok 1%float) /\
     ((1 - Pe =? 0)%float = true ->
      BinaryConfusion.Kappa b = Raise ZeroDivisionError)).
Proof.
  intros Hne Hp. unfold batch_update.
  set (obs := zip truths guesses) in *.
  assert (Hn : 0 < Z.of_nat (length obs)).
  { destruct obs; [done | cbn; lia]. }
  split.
  - destruct (perfect_updates obs ([], Confusion.init) Hp)
      as (Hb & Hrows & Hc & Hi).
    { apply built_init. }
    { constructor. }
    cbn zeta. cbn [fst snd Confusion.init Confusion.correct
                   Confusion.incorrect] in Hc, Hi.
    destruct (fold_left _ obs ([], Confusion.init)) as [h c]. cbn [fst snd] in *.
    destruct (built_sound h c Hb) as [_ Hinv]. unfold count_inv in Hinv.
    destruct (Confusion_Kappa_Pe_ok h c Hrows ltac:(lia)) as [Pe HPe].
    exists Pe. split; [done |].
    rewrite (Confusion_Kappa_perfect h c Pe HPe) by lia.
    split; [apply float_truediv_self | apply float_truediv_zero].
  - intros Hmax. cbn zeta.
    destruct (perfect_binary_updates obs BinaryConfusion.default Hp)
      as (Hfp & Hfn & Htp & Htn & Hsum).
    cbn [BinaryConfusion.default BinaryConfusion.tp BinaryConfusion.fp
         BinaryConfusion.fn BinaryConfusion.tn] in *.
    destruct (BinaryConfusion_Kappa_perfect _ Hfp Hfn Htp Htn ltac:(lia))
      as (Pe & HPe & HK).
    exists Pe. split; [done |]. rewrite HK.
    split; [apply float_truediv_self | apply float_truediv_zero].
Qed.

Lemma Kappa_of_perfect_agreement_witness :
  let truths := [VBool true; VBool false] in
  Confusion.Kappa
    (batch_update Confusion.update1 ([], Confusion.init) truths truths).1
    (batch_update Confusion.update1 ([], Confusion.init) truths truths).2
  = Ok 1%float /\
  BinaryConfusion.Kappa
    (batch_update BinaryConfusion.update BinaryConfusion.default truths truths)
  = Ok 1%float.
Proof.
  intros truths.
  assert (Hne : zip truths truths <> []) by discriminate.
  assert (Hp : perfect (zip truths truths)).
  { repeat constructor. }
  destruct (Kappa_of_perfect_agreement truths truths Hne Hp) as [Hc Hb].
  split.
  - destruct Hc as (Pe & HPe & Hone & _). apply Hone.
    vm_compute in HPe. injection HPe as <-. reflexivity.
  - destruct Hb as (Pe & HPe & Hone & _).
    { vm_compute. discriminate. }
    apply Hone. vm_compute in HPe. injection HPe as <-. reflexivity.
Defined.

(** C9, as stated, fails: with a single label the chance agreement is 1 and
    [Kappa] raises [ZeroDivisionError]. *)
Lemma Kappa_single_label_raises :
  let truths := [VBool true] in
  perfect (zip truths truths) /\
  Confusion.Kappa
    (batch_update Confusion.update1 ([], Confusion.init) truths truths).1
    (batch_update Confusion.update1 ([], Confusion.init) truths truths).2
  = Raise ZeroDivisionError /\
  BinaryConfusion.Kappa
    (batch_update BinaryConfusion.update BinaryConfusion.default truths truths)
  = Raise ZeroDivisionError.
Proof. split; [repeat constructor | split; reflexivity]. Qed.

(** ** Batch updates *)

Lemma count_pairs_app f obs obs' :
  count_pairs f (obs ++ obs') = count_pairs f obs + count_pairs f obs'.
Proof. induction obs as [| [t g] obs IH]; cbn; lia. Qed.

Lemma count_pairs_split (f : value -> value -> bool) obs :
  count_pairs f obs + count_pairs (fun t g => negb (f t g)) obs
  = Z.of_nat (length obs).
Proof.
  induction obs as [| [t g] obs IH]; cbn [count_pairs length]; [done |].
  destruct (f t g); cbn; lia.
Qed.

Lemma Accuracy_fold_counts (obs : list (value * value)) :
  forall s : Accuracy.t,
    fold_left (fun s tg => Accuracy.update s tg.1 tg.2) obs s
    = Accuracy.init
        (Accuracy.correct s + count_pairs py_eq obs)
        (Accuracy.incorrect s
         + count_pairs (fun t g => negb (py_eq t g)) obs).
Proof.
  induction obs as [| [t g] obs IH]; intros [c i]; cbn [fold_left count_pairs].
  - cbn. f_equal; lia.
  - rewrite IH. unfold Accuracy.update. cbn [fst snd].
    destruct (py_eq t g); cbn; f_equal; lia.
Qed.

(** X1: [Accuracy.batch_update] pairs the two sequences like [zip]: it adds
    to [correct] the number of pairs with [truth == guess], to [incorrect]
    the number of the others, and to [len] the length of the shorter
    sequence. *)
Theorem Accuracy_batch_update_counts
  (self : Accuracy.t) (truths guesses : list value) :
  let self' := batch_update Accuracy.update self truths guesses in
  Accuracy.correct self'
  = Accuracy.correct self + count_pairs py_eq (zip truths guesses) /\
  Accuracy.incorrect self'
  = Accuracy.incorrect self
    + count_pairs (fun t g => negb (py_eq t g)) (zip truths guesses) /\
  Accuracy.__len__ self'
  = Accuracy.__len__ self
    + Z.of_nat (Nat.min (length truths) (length guesses)).
Proof.
  unfold batch_update. rewrite Accuracy_fold_counts. cbn.
  repeat split. unfold Accuracy.__len__. cbn.
  pose proof (count_pairs_split py_eq (zip truths guesses)) as Hsplit.
  rewrite length_zip_with in Hsplit. lia.
Qed.

Lemma BinaryConfusion_fold_counts (obs : list (value * value)) :
  forall s : BinaryConfusion.t,
    fold_left (fun s tg => BinaryConfusion.update s tg.1 tg.2) obs s
    = BinaryConfusion.init (BinaryConfusion.hit s)
        (BinaryConfusion.tp s + count_pairs is_tp obs)
        (BinaryConfusion.fp s + count_pairs is_fp obs)
        (BinaryConfusion.fn s + count_pairs is_fn obs)
        (BinaryConfusion.tn s + count_pairs is_tn obs).
Proof.
  induction obs as [| [t g] obs IH]; intros [hit tp fp fn tn];
    cbn [fold_left count_pairs].
  - cbn. f_equal; lia.
  - rewrite IH. unfold BinaryConfusion.update, is_tp, is_fp, is_fn, is_tn.
    cbn [fst snd].
    destruct (py_bool t), (py_bool g); cbn; f_equal; lia.
Qed.

Lemma count_pairs_binary obs :
  count_pairs is_tp obs + count_pairs is_fp obs
  + count_pairs is_fn obs + count_pairs is_tn obs = Z.of_nat (length obs).
Proof.
  induction obs as [| [t g] obs IH]; cbn [count_pairs length]; [done |].
  unfold is_tp, is_fp, is_fn, is_tn in *.
  destruct (py_bool t), (py_bool g); cbn; lia.
Qed.

(** X2: [BinaryConfusion.batch_update] keeps the hit label, adds to each of
    the four cells the number of zipped pairs of its kind, and to [len] the
    length of the shorter sequence. *)
Theorem BinaryConfusion_batch_update_counts
  (self : BinaryConfusion.t) (truths guesses : list value) :
  let obs := zip truths guesses in
  let self' := batch_update BinaryConfusion.update self truths guesses in
  BinaryConfusion.hit self' = BinaryConfusion.hit self /\
  BinaryConfusion.tp self' = BinaryConfusion.tp self + count_pairs is_tp obs /\
  BinaryConfusion.fp self' = BinaryConfusion.fp self + count_pairs is_fp obs /\
  BinaryConfusion.fn self' = BinaryConfusion.fn self + count_pairs is_fn obs /\
  BinaryConfusion.tn self' = BinaryConfusion.tn self + count_pairs is_tn obs /\
  BinaryConfusion.__len__ self'
  = BinaryConfusion.__len__ self
    + Z.of_nat (Nat.min (length truths) (length guesses)).
Proof.
  unfold batch_update. rewrite BinaryConfusion_fold_counts. cbn.
  repeat split. unfold BinaryConfusion.__len__. cbn.
  pose proof (count_pairs_binary (zip truths guesses)) as Hsplit.
  rewrite length_zip_with in Hsplit. lia.
Qed.

Lemma Confusion_fold_counts (obs : list (value * value)) :
  forall st : heap * Confusion.t,
    let st' := fold_left (fun s tg => Confusion.update1 s tg.1 tg.2) obs st in
    Confusion.correct st'.2
    = Confusion.correct st.2 + count_pairs py_eq obs /\
    Confusion.incorrect st'.2
    = Confusion.incorrect st.2
      + count_pairs (fun t g => negb (py_eq t g)) obs.
Proof.
  induction obs as [| [t g] obs IH]; intros [h c]; cbn [fold_left count_pairs].
  - cbn. lia.
  - specialize (IH (Confusion.update1 (h, c) t g)). cbn zeta in IH.
    cbn [fst snd] in *. destruct IH as [-> ->].
    unfold Confusion.update1, Confusion.update.
    destruct (Confusion.matrix_getitem _ _ _) as [[h1 m1] a].
    destruct (py_eq t g); cbn; lia.
Qed.

(** X3: [Confusion.batch_update], from any heap and matrix, adds to
    [correct] the number of zipped pairs with [truth == guess], to
    [incorrect] the number of the others, and to [len] the length of the
    shorter sequence. *)
Theorem Confusion_batch_update_counts
  (h : heap) (self : Confusion.t) (truths guesses : list value) :
  let st' := batch_update Confusion.update1 (h, self) truths guesses in
  Confusion.correct st'.2
  = Confusion.correct self + count_pairs py_eq (zip truths guesses) /\
  Confusion.incorrect st'.2
  = Confusion.incorrect self
    + count_pairs (fun t g => negb (py_eq t g)) (zip truths guesses) /\
  Confusion.__len__ st'.2
  = Confusion.__len__ self
    + Z.of_nat (Nat.min (length truths) (length guesses)).
Proof.
  unfold batch_update.
  destruct (Confusion_fold_counts (zip truths guesses) (h, self)) as [Hc Hi].
  cbn zeta in *. cbn [fst snd] in *. repeat split; [done | done |].
  unfold Confusion.__len__. rewrite Hc, Hi.
  pose proof (count_pairs_split py_eq (zip truths guesses)) as Hsplit.
  rewrite length_zip_with in Hsplit. lia.
Qed.

(** ** Sharding and merging *)

Lemma py_eq_refl (a : value) : py_eq a a = true.
Proof.
  destruct a as [| b | n | s]; cbn; auto using Z.eqb_refl, String.eqb_refl.
Qed.

(** X4: counting a second batch in a new [Accuracy()] and adding it gives
    the accumulator that counting both batches in a row gives. *)
Theorem Accuracy_shard_merge
  (self : Accuracy.t) (truths1 guesses1 truths2 guesses2 : list value) :
  length truths1 = length guesses1 ->
  Accuracy_add
    (batch_update Accuracy.update self truths1 guesses1)
    (Obj (Acc (batch_update Accuracy.update (Accuracy.init 0 0)
                 truths2 guesses2)))
  = Ok (batch_update Accuracy.update self
          (truths1 ++ truths2) (guesses1 ++ guesses2)).
Proof.
  intros Hlen. unfold batch_update.
  rewrite zip_with_app by done.
  rewrite !Accuracy_fold_counts, !count_pairs_app. cbn.
  f_equal. f_equal; lia.
Qed.

Lemma Accuracy_shard_merge_witness :
  Accuracy_add
    (batch_update Accuracy.update (Accuracy.init 0 0)
       [VStr "a"; VStr "b"] [VStr "a"; VStr "c"])
    (Obj (Acc (batch_update Accuracy.update (Accuracy.init 0 0)
                 [VInt 1] [VBool true])))
  = Ok (Accuracy.init 2 1).
Proof.
  apply (Accuracy_shard_merge (Accuracy.init 0 0)
           [VStr "a"; VStr "b"] [VStr "a"; VStr "c"] [VInt 1] [VBool true]).
  reflexivity.
Defined.

(** X5: counting a second batch in a new [BinaryConfusion] with the same
    hit label and adding it gives the matrix that counting both batches in a
    row gives. *)
Theorem BinaryConfusion_shard_merge
  (self : BinaryConfusion.t) (truths1 guesses1 truths2 guesses2 : list value) :
  length truths1 = length guesses1 ->
  BinaryConfusion_add
    (batch_update BinaryConfusion.update self truths1 guesses1)
    (Obj (Bin (batch_update BinaryConfusion.update
                 (BinaryConfusion.init (BinaryConfusion.hit self) 0 0 0 0)
                 truths2 guesses2)))
  = Ok (batch_update BinaryConfusion.update self
          (truths1 ++ truths2) (guesses1 ++ guesses2)).
Proof.
  intros Hlen. unfold batch_update.
  rewrite zip_with_app by done.
  rewrite !BinaryConfusion_fold_counts, !count_pairs_app. cbn.
  rewrite py_eq_refl. cbn. f_equal. f_equal; lia.
Qed.

Lemma BinaryConfusion_shard_merge_witness :
  BinaryConfusion_add
    (batch_update BinaryConfusion.update BinaryConfusion.default
       [VBool true; VBool false] [VBool true; VBool true])
    (Obj (Bin (batch_update BinaryConfusion.update BinaryConfusion.default
                 [VInt 0; VStr "x"] [VNone; VStr ""])))
  = Ok (BinaryConfusion.init (VBool true) 1 1 1 1).
Proof.
  apply (BinaryConfusion_shard_merge BinaryConfusion.default
           [VBool true; VBool false] [VBool true; VBool true]
           [VInt 0; VStr "x"] [VNone; VStr ""]).
  reflexivity.
Defined.

(** X6: whenever [+] returns, the length of the result is the sum of the
    lengths of the operands, for the three classes (for [Confusion] also
    when the operands share rows). *)
Theorem add_len (h h' : heap) (l r res : accumulator) :
  add h l (Obj r) = Ok (h', res) ->
  acc_len res = acc_len l + acc_len r.
Proof.
  destruct l as [a | b | c], r as [a' | b' | c']; cbn; try discriminate.
  - intros [= _ <-]. unfold acc_len, Accuracy.__len__. cbn. lia.
  - destruct (negb _); cbn; [discriminate |].
    intros [= _ <-]. unfold acc_len, BinaryConfusion.__len__. cbn. lia.
  - destruct (add_rows _ _) as [h1 m1]. cbn.
    intros [= _ <-]. unfold acc_len, Confusion.__len__. cbn. lia.
Qed.

Lemma add_len_witness :
  acc_len (Conf (Confusion.mk [(VStr "A", 0%nat)] 2 0)) = 1 + 1.
Proof.
  apply (add_len [[(VStr "A", 1)]] [[(VStr "A", 2)]]
           (Conf (Confusion.mk [(VStr "A", 0%nat)] 1 0))
           (Conf (Confusion.mk [(VStr "A", 0%nat)] 1 0))).
  reflexivity.
Defined.

(** ** Accuracy of non-empty accumulators *)

(** X7: on a non-empty [Accuracy] with non-negative counts and a length
    that [len] accepts, [accuracy] returns a float: exactly [1.0] when
    nothing is incorrect and exactly [0.0] when nothing is correct. *)
Theorem Accuracy_accuracy_nonempty (self : Accuracy.t) :
  0 <= Accuracy.correct self -> 0 <= Accuracy.incorrect self ->
  0 < Accuracy.__len__ self <= sys_maxsize ->
  (exists q, Accuracy.accuracy self = Ok q) /\
  (Accuracy.incorrect self = 0 -> Accuracy.accuracy self = Ok 1%float) /\
  (Accuracy.correct self = 0 -> Accuracy.accuracy self = Ok 0%float).
Proof.
  intros Hc Hi Hn. unfold Accuracy.accuracy.
  rewrite py_len_ok by lia. cbn [bind].
  unfold Accuracy.__len__ in *. split; [| split].
  - apply int_truediv_le_ok; lia.
  - intros H0. rewrite H0, Z.add_0_r in *. apply int_truediv_self. lia.
  - intros H0. rewrite H0 in *. apply int_truediv_zero_pos. lia.
Qed.

Lemma Accuracy_accuracy_nonempty_witness :
  Accuracy.accuracy (Accuracy.init 3 0) = Ok 1%float.
Proof.
  apply (Accuracy_accuracy_nonempty (Accuracy.init 3 0));
    unfold Accuracy.__len__, sys_maxsize; cbn; lia.
Defined.

(** X8: on a non-empty [Confusion] with non-negative counts, [accuracy]
    returns a float: exactly [1.0] when nothing is incorrect and exactly
    [0.0] when nothing is correct. *)
Theorem Confusion_accuracy_nonempty (self : Confusion.t) :
  0 <= Confusion.correct self -> 0 <= Confusion.incorrect self ->
  0 < Confusion.__len__ self ->
  (exists q, Confusion.accuracy self = Ok q) /\
  (Confusion.incorrect self = 0 -> Confusion.accuracy self = Ok 1%float) /\
  (Confusion.correct self = 0 -> Confusion.accuracy self = Ok 0%float).
Proof.
  intros Hc Hi Hn. unfold Confusion.accuracy, Confusion.__len__ in *.
  split; [| split].
  - apply int_truediv_le_ok; lia.
  - intros H0. rewrite H0, Z.add_0_r in *. apply int_truediv_self. lia.
  - intros H0. rewrite H0 in *. apply int_truediv_zero_pos. lia.
Qed.

Lemma Confusion_accuracy_nonempty_witness :
  Confusion.accuracy (Confusion.mk [] 0 4) = Ok 0%float.
Proof.
  apply (Confusion_accuracy_nonempty (Confusion.mk [] 0 4));
    unfold Confusion.__len__; cbn; lia.
Defined.

(** X9: on a non-empty [BinaryConfusion] with non-negative cells and a
    length that [len] accepts, [accuracy] returns a float: exactly [1.0]
    without false positives and negatives, exactly [0.0] without true
    positives and negatives. *)
Theorem BinaryConfusion_accuracy_nonempty (self : BinaryConfusion.t) :
  0 <= BinaryConfusion.tp self -> 0 <= BinaryConfusion.fp self ->
  0 <= BinaryConfusion.fn self -> 0 <= BinaryConfusion.tn self ->
  0 < BinaryConfusion.__len__ self <= sys_maxsize ->
  (exists q, BinaryConfusion.accuracy self = Ok q) /\
  (BinaryConfusion.fp self = 0 -> BinaryConfusion.fn self = 0 ->
   BinaryConfusion.accuracy self = Ok 1%float) /\
  (BinaryConfusion.tp self = 0 -> BinaryConfusion.tn self = 0 ->
   BinaryConfusion.accuracy self = Ok 0%float).
Proof.
  intros Htp Hfp Hfn Htn Hn. unfold BinaryConfusion.accuracy.
  rewrite py_len_ok by lia. cbn [bind].
  unfold BinaryConfusion.__len__ in *. split; [| split].
  - destruct (int_truediv_le_ok
                (BinaryConfusion.tp self + BinaryConfusion.tn self)
                (BinaryConfusion.tp self + BinaryConfusion.fp self
                 + BinaryConfusion.fn self + BinaryConfusion.tn self))
      as [q ->]; [lia | lia |]. cbn. eauto.
  - intros Hfp0 Hfn0. rewrite Hfp0, Hfn0, !Z.add_0_r in *.
    rewrite int_truediv_self by lia. reflexivity.
  - intros Htp0 Htn0. rewrite Htp0, Htn0 in *. cbn [Z.add] in *.
    rewrite int_truediv_zero_pos by lia. reflexivity.
Qed.

Lemma BinaryConfusion_accuracy_nonempty_witness :
  BinaryConfusion.accuracy (BinaryConfusion.init (VBool true) 2 0 0 5)
  = Ok 1%float.
Proof.
  apply (BinaryConfusion_accuracy_nonempty
           (BinaryConfusion.init (VBool true) 2 0 0 5));
    unfold BinaryConfusion.__len__, sys_maxsize; cbn; lia.
Defined.

(** ** The rates of a binary matrix *)

Lemma try_int_truediv_ok (a b : Z) :
  0 <= a -> 0 <= b ->
  exists q, try_except (int_truediv a (a + b)) ZeroDivisionError (Ok INF) = Ok q.
Proof.
  intros Ha Hb. destruct (Z.eq_dec (a + b) 0) as [-> | Hne].
  - cbn. eauto.
  - destruct (int_truediv_le_ok a (a + b)) as [q ->]; [lia | lia |].
    cbn. eauto.
Qed.

(** X10: with non-negative cells, [precision], [recall], [FPR] and [NPV]
    always return a float, and [FDR] is one minus the precision. *)
Theorem BinaryConfusion_rates_return (self : BinaryConfusion.t) :
  0 <= BinaryConfusion.tp self -> 0 <= BinaryConfusion.fp self ->
  0 <= BinaryConfusion.fn self -> 0 <= BinaryConfusion.tn self ->
  (exists p, BinaryConfusion.precision self = Ok p /\
             BinaryConfusion.FDR self = Ok (1 - p)%float) /\
  (exists r, BinaryConfusion.recall self = Ok r) /\
  (exists f, BinaryConfusion.FPR self = Ok f) /\
  (exists n, BinaryConfusion.NPV self = Ok n).
Proof.
  intros Htp Hfp Hfn Htn.
  unfold BinaryConfusion.FDR, BinaryConfusion.PPV, BinaryConfusion.precision,
    BinaryConfusion.recall, BinaryConfusion.FPR, BinaryConfusion.NPV.
  repeat split.
  - destruct (try_int_truediv_ok _ _ Htp Hfp) as [p ->]. cbn. eauto.
  - now apply try_int_truediv_ok.
  - now apply try_int_truediv_ok.
  - now apply try_int_truediv_ok.
Qed.

Lemma BinaryConfusion_rates_return_witness :
  exists r, BinaryConfusion.recall (BinaryConfusion.init (VBool true) 8 2 2 0)
            = Ok r.
Proof.
  apply (BinaryConfusion_rates_return
           (BinaryConfusion.init (VBool true) 8 2 2 0)); cbn; lia.
Defined.

(** X11: a rate whose denominator is zero is [+inf]: [precision] and [PPV]
    (with [FDR] equal to [-inf]) when [tp + fp = 0]; [recall],
    [sensitivity] and [TPR] when [tp + fn = 0]; [specificity], [TNR] and
    [FPR] when [fp + tn = 0]; [NPV] when [tn + fn = 0]. *)
Theorem BinaryConfusion_rates_degenerate (self : BinaryConfusion.t) :
  (BinaryConfusion.tp self + BinaryConfusion.fp self = 0 ->
   BinaryConfusion.precision self = Ok INF /\
   BinaryConfusion.PPV self = Ok INF /\
   BinaryConfusion.FDR self = Ok neg_infinity) /\
  (BinaryConfusion.tp self + BinaryConfusion.fn self = 0 ->
   BinaryConfusion.recall self = Ok INF /\
   BinaryConfusion.sensitivity self = Ok INF /\
   BinaryConfusion.TPR self = Ok INF) /\
  (BinaryConfusion.fp self + BinaryConfusion.tn self = 0 ->
   BinaryConfusion.specificity self = Ok INF /\
   BinaryConfusion.TNR self = Ok INF /\
   BinaryConfusion.FPR self = Ok INF) /\
  (BinaryConfusion.tn self + BinaryConfusion.fn self = 0 ->
   BinaryConfusion.NPV self = Ok INF).
Proof.
  unfold BinaryConfusion.FDR, BinaryConfusion.PPV, BinaryConfusion.TPR,
    BinaryConfusion.TNR, BinaryConfusion.sensitivity,
    BinaryConfusion.precision, BinaryConfusion.recall,
    BinaryConfusion.specificity, BinaryConfusion.FPR, BinaryConfusion.NPV.
  split; [| split; [| split]]; intros H; rewrite H; repeat split.
Qed.

Lemma BinaryConfusion_rates_degenerate_witness :
  BinaryConfusion.NPV BinaryConfusion.default = Ok INF.
Proof.
  apply (BinaryConfusion_rates_degenerate BinaryConfusion.default).
  reflexivity.
Defined.

(** X12: [specificity] divides the true positives, not the true negatives,
    by [fp + tn]: it is [0.0] without true positives however many true
    negatives there are, and [1.0] whenever [fp + tn] equals a non-zero
    [tp]. *)
Theorem specificity_counts_true_positives (self : BinaryConfusion.t) :
  (BinaryConfusion.tp self = 0 ->
   0 < BinaryConfusion.fp self + BinaryConfusion.tn self ->
   BinaryConfusion.specificity self = Ok 0%float) /\
  (BinaryConfusion.tp self <> 0 ->
   BinaryConfusion.fp self + BinaryConfusion.tn self = BinaryConfusion.tp self ->
   BinaryConfusion.specificity self = Ok 1%float).
Proof.
  unfold BinaryConfusion.specificity. split.
  - intros -> Hpos. now rewrite int_truediv_zero_pos.
  - intros Hne ->. now rewrite int_truediv_self.
Qed.

Lemma specificity_counts_true_positives_witness :
  BinaryConfusion.specificity (BinaryConfusion.init (VBool true) 0 0 1 9)
  = Ok 0%float /\
  BinaryConfusion.specificity (BinaryConfusion.init (VBool true) 4 4 0 0)
  = Ok 1%float.
Proof.
  split.
  - apply (specificity_counts_true_positives
             (BinaryConfusion.init (VBool true) 0 0 1 9)); cbn; lia.
  - apply (specificity_counts_true_positives
             (BinaryConfusion.init (VBool true) 4 4 0 0)); cbn; lia.
Defined.

(** ** F-score, MCC and Kappa at the edges *)

Lemma infinite_ratio_is_nan (a b : float) :
  let den := (b * infinity + infinity)%float in
  (den =? 0)%float = false /\
  (a * infinity * infinity / den)%float = nan.
Proof.
  cbn zeta. split.
  - rewrite FloatAxioms.eqb_spec, add_spec, mul_spec.
    change (Prim2SF infinity) with (S754_infinity false).
    change (Prim2SF 0) with (S754_zero false).
    destruct (Prim2SF b) as [[] | [] | | [] m e]; reflexivity.
  - apply Prim2SF_inj.
    rewrite div_spec, add_spec, !mul_spec.
    change (Prim2SF infinity) with (S754_infinity false).
    change (Prim2SF nan) with S754_nan.
    destruct (Prim2SF a) as [[] | [] | | [] ma ea],
             (Prim2SF b) as [[] | [] | | [] mb eb]; reflexivity.
Qed.

(** X13: on a matrix without true positives, false positives and false
    negatives, [Fscore] returns NaN for every ratio it accepts: precision
    and recall are both [+inf]. *)
Theorem Fscore_without_positives (self : BinaryConfusion.t) (ratio : float) :
  BinaryConfusion.tp self = 0 -> BinaryConfusion.fp self = 0 ->
  BinaryConfusion.fn self = 0 -> (0 <? ratio)%float = true ->
  BinaryConfusion.Fscore self ratio = Ok NAN.
Proof.
  intros Htp Hfp Hfn Hratio.
  assert (HP : BinaryConfusion.precision self = Ok INF).
  { unfold BinaryConfusion.precision. now rewrite Htp, Hfp. }
  assert (HR : BinaryConfusion.recall self = Ok INF).
  { unfold BinaryConfusion.recall. now rewrite Htp, Hfn. }
  unfold BinaryConfusion.Fscore. rewrite Hratio, HP, HR.
  cbn [negb bind]. cbv zeta. unfold float_truediv, INF.
  destruct (infinite_ratio_is_nan (1 + ratio * ratio) (ratio * ratio))
    as [-> ->].
  reflexivity.
Qed.

Lemma Fscore_without_positives_witness :
  BinaryConfusion.Fscore (BinaryConfusion.init (VBool true) 0 0 0 7) 2
  = Ok NAN.
Proof.
  apply (Fscore_without_positives
           (BinaryConfusion.init (VBool true) 0 0 0 7) 2); reflexivity.
Defined.

(** X14: on a matrix with true positives and neither false positives nor
    false negatives, precision, recall and [F1] are exactly [1.0]. *)
Theorem F1_without_errors (self : BinaryConfusion.t) :
  BinaryConfusion.tp self <> 0 ->
  BinaryConfusion.fp self = 0 -> BinaryConfusion.fn self = 0 ->
  BinaryConfusion.precision self = Ok 1%float /\
  BinaryConfusion.recall self = Ok 1%float /\
  BinaryConfusion.F1 self = Ok 1%float.
Proof.
  intros Htp Hfp Hfn.
  assert (HP : BinaryConfusion.precision self = Ok 1%float).
  { unfold BinaryConfusion.precision.
    now rewrite Hfp, Z.add_0_r, int_truediv_self. }
  assert (HR : BinaryConfusion.recall self = Ok 1%float).
  { unfold BinaryConfusion.recall.
    now rewrite Hfn, Z.add_0_r, int_truediv_self. }
  repeat split; try assumption.
  unfold BinaryConfusion.F1, BinaryConfusion.Fscore. rewrite HP, HR.
  reflexivity.
Qed.

Lemma F1_without_errors_witness :
  BinaryConfusion.F1 (BinaryConfusion.init (VBool true) 5 0 0 3) = Ok 1%float.
Proof.
  apply (F1_without_errors (BinaryConfusion.init (VBool true) 5 0 0 3));
    cbn; (lia || reflexivity).
Defined.

(** X15: [Fscore] raises [AssertionError] exactly when [ratio > 0.] is
    false, which includes a NaN ratio. *)
Theorem Fscore_assertion (self : BinaryConfusion.t) (ratio : float) :
  BinaryConfusion.Fscore self ratio = Raise AssertionError
  <-> (0 <? ratio)%float = false.
Proof.
  split.
  - intros Hraise. destruct (0 <? ratio)%float eqn:Hpos; [| reflexivity].
    now destruct (Fscore_accepts self ratio Hpos).
  - intros Hneg. unfold BinaryConfusion.Fscore. now rewrite Hneg.
Qed.

(** X16: [MCC] is NaN on a matrix without false positives and false
    negatives whose true positives or true negatives are zero (empty, only
    true positives, or only true negatives): the division by zero is
    caught. *)
Theorem MCC_without_contrast (self : BinaryConfusion.t) :
  0 <= BinaryConfusion.__len__ self <= sys_maxsize ->
  BinaryConfusion.fp self = 0 -> BinaryConfusion.fn self = 0 ->
  BinaryConfusion.tp self = 0 \/ BinaryConfusion.tn self = 0 ->
  BinaryConfusion.MCC self = Ok NAN.
Proof.
  intros Hn Hfp Hfn Hcell. unfold BinaryConfusion.MCC.
  rewrite py_len_ok by done. cbn [bind].
  unfold BinaryConfusion.__len__ in *. rewrite Hfp, Hfn, !Z.add_0_r in *.
  destruct Hcell as [Htp | Htn].
  - rewrite Htp in *. cbn [Z.add] in *.
    destruct (Z.eq_dec (BinaryConfusion.tn self) 0) as [-> | Hne];
      [reflexivity |].
    rewrite int_truediv_zero_pos by lia. reflexivity.
  - rewrite Htn, Z.add_0_r in *.
    destruct (Z.eq_dec (BinaryConfusion.tp self) 0) as [-> | Hne];
      [reflexivity |].
    rewrite int_truediv_self by lia. reflexivity.
Qed.

Lemma MCC_without_contrast_witness :
  BinaryConfusion.MCC (BinaryConfusion.init (VBool true) 6 0 0 0) = Ok NAN.
Proof.
  apply (MCC_without_contrast (BinaryConfusion.init (VBool true) 6 0 0 0));
    unfold BinaryConfusion.__len__, sys_maxsize; cbn; (lia || tauto).
Defined.

(** X17: without observations [BinaryConfusion.Kappa] returns NaN, while
    [Confusion.Kappa] of a matrix without rows raises
    [ZeroDivisionError]. *)
Theorem Kappa_without_observations :
  (forall b : BinaryConfusion.t,
      len b = Ok 0 -> BinaryConfusion.Kappa b = Ok NAN) /\
  (forall (h : heap) (c : Confusion.t),
      Confusion.matrix c = [] -> len c = Ok 0 ->
      Confusion.Kappa h c = Raise ZeroDivisionError).
Proof.
  split.
  - intros b Hlen. unfold BinaryConfusion.Kappa.
    change (len b) with (py_len (BinaryConfusion.__len__ b)) in Hlen.
    now rewrite Hlen.
  - intros h c Hm Hlen. unfold Confusion.Kappa, Confusion.Kappa_Pe.
    rewrite Hm. cbn [fold_left bind].
    now rewrite (Confusion_accuracy_empty c Hlen).
Qed.

Lemma Kappa_without_observations_witness :
  BinaryConfusion.Kappa BinaryConfusion.default = Ok NAN /\
  Confusion.Kappa [] Confusion.init = Raise ZeroDivisionError.
Proof.
  destruct Kappa_without_observations as [Hb Hc]. split.
  - apply Hb. reflexivity.
  - apply Hc; reflexivity.
Defined.

(** ** Cells of a [Confusion] matrix *)

Lemma py_eq_proper (k0 k k' : value) :
  py_eq k k' = true -> py_eq k0 k = py_eq k0 k'.
Proof.
  intros Hk. destruct (py_eq k0 k) eqn:H1, (py_eq k0 k') eqn:H2; auto.
  - now rewrite (py_eq_trans _ _ _ H1 Hk) in H2.
  - rewrite py_eq_sym in Hk. now rewrite (py_eq_trans _ _ _ H2 Hk) in H1.
Qed.

Section DictFacts.
Context {V : Type}.
Implicit Types d : list (value * V).

Lemma dict_get_proper d k k' :
  py_eq k k' = true -> dict_get d k = dict_get d k'.
Proof.
  intros Hk. induction d as [| [k0 v0] d IH]; cbn; [done |].
  now rewrite (py_eq_proper k0 k k' Hk), IH.
Qed.

Lemma dict_get_set_eq d k v : dict_get (dict_set d k v) k = Some v.
Proof.
  induction d as [| [k0 v0] d IH]; cbn.
  - now rewrite py_eq_refl.
  - destruct (py_eq k0 k) eqn:Hk; cbn; now rewrite Hk.
Qed.

Lemma dict_get_set_ne d k k' v :
  py_eq k k' = false -> dict_get (dict_set d k v) k' = dict_get d k'.
Proof.
  intros Hne. induction d as [| [k0 v0] d IH]; cbn.
  - now rewrite Hne.
  - destruct (py_eq k0 k) eqn:Hk; cbn.
    + destruct (py_eq k0 k') eqn:Hk'; [| done].
      rewrite py_eq_sym in Hk.
      now rewrite (py_eq_trans _ _ _ Hk Hk') in Hne.
    + now rewrite IH.
Qed.

Lemma dict_get_app d d' k :
  dict_get (d ++ d') k
  = match dict_get d k with Some v => Some v | None => dict_get d' k end.
Proof.
  induction d as [| [k0 v0] d IH]; cbn; [done |].
  now destruct (py_eq k0 k).
Qed.

Lemma dict_ok_set d k v : dict_ok d -> dict_ok (dict_set d k v).
Proof.
  induction d as [| [k0 v0] d IH]; cbn.
  - auto.
  - intros [Hk0 Hd]. destruct (py_eq k0 k) eqn:Hk; cbn.
    + auto.
    + split; [| auto]. rewrite dict_get_set_ne; [done |].
      now rewrite py_eq_sym.
Qed.

Lemma dict_ok_snoc d k v :
  dict_ok d -> dict_get d k = None -> dict_ok (d ++ [(k, v)]).
Proof.
  induction d as [| [k0 v0] d IH]; cbn.
  - auto.
  - intros [Hk0 Hd]. destruct (py_eq k0 k) eqn:Hk; [discriminate |].
    intros Hnone. split; [| auto].
    rewrite dict_get_app, Hk0. cbn. now rewrite py_eq_sym, Hk.
Qed.

End DictFacts.

Lemma dict_get_same_addr (m : list (value * addr)) (t t' : value) (a : addr) :
  NoDup (addrs m) -> dict_get m t = Some a -> dict_get m t' = Some a ->
  py_eq t t' = true.
Proof.
  induction m as [| [k0 a0] m IH]; cbn; [discriminate |].
  intros [Hnotin Hnd]%NoDup_cons.
  destruct (py_eq k0 t) eqn:Ht, (py_eq k0 t') eqn:Ht'.
  - intros _ _. rewrite py_eq_sym in Ht. exact (py_eq_trans _ _ _ Ht Ht').
  - intros [= ->] Hin%dict_get_addrs. contradiction.
  - intros Hin%dict_get_addrs [= ->]. contradiction.
  - now apply IH.
Qed.

Lemma lookup_cell_ext (h h' : heap) (m : list (value * addr)) :
  (forall a, a ∈ addrs m -> deref h' a = deref h a) ->
  forall t g, lookup_cell h' m t g = lookup_cell h m t g.
Proof.
  intros Hext t g. unfold lookup_cell.
  destruct (dict_get m t) as [a |] eqn:Hm; [| done].
  rewrite Hext; [done |]. now apply dict_get_addrs in Hm.
Qed.

Lemma lookup_cell_proper h m t t' g :
  py_eq t t' = true -> lookup_cell h m t g = lookup_cell h m t' g.
Proof. intros Ht. unfold lookup_cell. now rewrite (dict_get_proper m t t'). Qed.

(** Writing one row changes the cells of its truth label only. *)
Lemma lookup_cell_row_write (h h2 : heap) m a t :
  NoDup (addrs m) -> dict_get m t = Some a ->
  (forall a', a' <> a -> deref h2 a' = deref h a') ->
  forall t' g',
    lookup_cell h2 m t' g'
    = if py_eq t t' then default 0 (dict_get (deref h2 a) g')
      else lookup_cell h m t' g'.
Proof.
  intros Hnd Hm Hother t' g'. unfold lookup_cell.
  destruct (py_eq t t') eqn:Ht.
  - now rewrite <- (dict_get_proper m t t' Ht), Hm.
  - destruct (dict_get m t') as [a' |] eqn:Hm'; [| done].
    rewrite Hother; [done |]. intros ->.
    now rewrite (dict_get_same_addr m t t' a Hnd Hm Hm') in Ht.
Qed.

Lemma getitem_lookup h m t h1 m1 a :
  Confusion.matrix_getitem h m t = (h1, m1, a) ->
  Forall (fun x => (x < length h)%nat) (addrs m) ->
  dict_get m1 t = Some a /\
  (forall t' g', lookup_cell h1 m1 t' g' = lookup_cell h m t' g').
Proof.
  unfold Confusion.matrix_getitem. intros Hget Hlt.
  destruct (dict_get m t) as [a0 |] eqn:Hm; injection Hget as <- <- <-.
  - auto.
  - split.
    + rewrite dict_get_app, Hm. cbn. now rewrite py_eq_refl.
    + intros t' g'. unfold lookup_cell. rewrite dict_get_app. cbn.
      destruct (dict_get m t') as [a' |] eqn:Hm'.
      * rewrite deref_app_l; [done |].
        rewrite Forall_forall in Hlt. apply Hlt.
        now apply dict_get_addrs in Hm'.
      * destruct (py_eq t t'); [| done].
        unfold deref. now rewrite list_lookup_middle.
Qed.

Lemma getitem_dicts_ok h m t h1 m1 a :
  Confusion.matrix_getitem h m t = (h1, m1, a) ->
  Forall (fun x => (x < length h)%nat) (addrs m) ->
  dict_ok m -> Forall (fun x => dict_ok (deref h x)) (addrs m) ->
  dict_ok m1 /\ Forall (fun x => dict_ok (deref h1 x)) (addrs m1).
Proof.
  unfold Confusion.matrix_getitem. intros Hget Hlt Hm Hrows.
  destruct (dict_get m t) as [a0 |] eqn:Hmt; injection Hget as <- <- <-.
  - auto.
  - split; [now apply dict_ok_snoc |].
    rewrite addrs_app. apply Forall_app. split.
    + rewrite Forall_forall in Hrows, Hlt |- *. intros x Hx.
      rewrite deref_app_l by now apply Hlt. now apply Hrows.
    + apply Forall_singleton. unfold deref.
      now rewrite list_lookup_middle.
Qed.

Lemma rows_ok_row_write (h h2 : heap) m a :
  Forall (fun x => dict_ok (deref h x)) (addrs m) ->
  (forall a', a' <> a -> deref h2 a' = deref h a') ->
  dict_ok (deref h2 a) ->
  Forall (fun x => dict_ok (deref h2 x)) (addrs m).
Proof.
  intros Hrows Hother Ha. rewrite Forall_forall in Hrows |- *. intros x Hx.
  destruct (decide (x = a)) as [-> | Hne]; [done |].
  rewrite Hother by done. now apply Hrows.
Qed.

Lemma row_iadd_deref h a g k :
  (a < length h)%nat ->
  deref (row_iadd h a g k) a
  = dict_set (deref h a) g (default 0 (dict_get (deref h a) g) + k).
Proof. intros Ha. unfold row_iadd. now rewrite deref_insert_eq. Qed.

Lemma update_cells_raw h m t g k h1 m1 a :
  Confusion.matrix_getitem h m t = (h1, m1, a) ->
  NoDup (addrs m) -> Forall (fun x => (x < length h)%nat) (addrs m) ->
  let h2 := row_iadd h1 a g k in
  lookup_cell h2 m1 t g = lookup_cell h m t g + k /\
  (forall t' g',
      py_eq t t' = false \/ py_eq g g' = false ->
      lookup_cell h2 m1 t' g' = lookup_cell h m t' g').
Proof.
  intros Hget Hnd Hlt h2.
  destruct (matrix_getitem_spec _ _ _ _ _ _ Hget Hnd Hlt)
    as (Hnd1 & Hlt1 & Ha & _).
  destruct (getitem_lookup _ _ _ _ _ _ Hget Hlt) as [Hm1 Hsame].
  assert (Ha' : (a < length h1)%nat).
  { rewrite Forall_forall in Hlt1. now apply Hlt1. }
  assert (Hwrite := lookup_cell_row_write h1 h2 m1 a t Hnd1 Hm1
                      (fun a' Hne => row_iadd_other h1 a a' g k
                                       (not_eq_sym Hne))).
  assert (Hrow : forall g', default 0 (dict_get (deref h1 a) g')
                            = lookup_cell h m t g').
  { intros g'. rewrite <- Hsame. unfold lookup_cell. now rewrite Hm1. }
  subst h2. split.
  - rewrite Hwrite, py_eq_refl, row_iadd_deref, dict_get_set_eq by done.
    cbn. now rewrite Hrow.
  - intros t' g' Hne. rewrite Hwrite.
    destruct (py_eq t t') eqn:Ht; [| apply Hsame].
    destruct Hne as [? | Hg]; [discriminate |].
    rewrite row_iadd_deref, dict_get_set_ne, Hrow by done.
    now apply lookup_cell_proper.
Qed.

(** X18: on a matrix whose rows are allocated and distinct,
    [update(truth, guess, k)] adds [k] to the cell [(truth, guess)] and
    leaves every cell with another truth or another guess label
    unchanged. *)
Theorem Confusion_update_cells
  (h : heap) (c : Confusion.t) (truth guess : value) (k : Z) :
  wf h c ->
  let st' := Confusion.update (h, c) truth guess k in
  Confusion.cell st'.1 st'.2 truth guess = Confusion.cell h c truth guess + k /\
  (forall t' g',
      py_eq truth t' = false \/ py_eq guess g' = false ->
      Confusion.cell st'.1 st'.2 t' g' = Confusion.cell h c t' g').
Proof.
  intros [Hnd Hlt]. unfold Confusion.update.
  destruct (Confusion.matrix_getitem h (Confusion.matrix c) truth)
    as [[h1 m1] a] eqn:Hget.
  pose proof (update_cells_raw _ _ _ guess k _ _ _ Hget Hnd Hlt) as Hraw.
  destruct (py_eq truth guess); exact Hraw.
Qed.

Lemma Confusion_update_cells_witness :
  let st := Confusion.update ([], Confusion.init) (VStr "A") (VStr "B") 3 in
  Confusion.cell st.1 st.2 (VStr "A") (VStr "B") = 0 + 3.
Proof.
  apply (Confusion_update_cells [] Confusion.init (VStr "A") (VStr "B") 3).
  split; cbn; constructor.
Defined.

Lemma update_owns h c truth guess k :
  owns h c ->
  owns (Confusion.update (h, c) truth guess k).1
       (Confusion.update (h, c) truth guess k).2.
Proof.
  intros (Hwf & Hm & Hrows).
  destruct (Confusion.update (h, c) truth guess k) as [h' c'] eqn:Hupd.
  destruct (update_spec _ _ _ _ _ _ _ Hupd Hwf) as (Hwf' & _).
  split; [done |]. cbn [fst snd].
  unfold Confusion.update in Hupd. destruct Hwf as [Hnd Hlt].
  destruct (Confusion.matrix_getitem h (Confusion.matrix c) truth)
    as [[h1 m1] a] eqn:Hget.
  destruct (matrix_getitem_spec _ _ _ _ _ _ Hget Hnd Hlt)
    as (Hnd1 & Hlt1 & Ha & _).
  destruct (getitem_dicts_ok _ _ _ _ _ _ Hget Hlt Hm Hrows) as [Hm1 Hrows1].
  assert (Ha' : (a < length h1)%nat).
  { rewrite Forall_forall in Hlt1. now apply Hlt1. }
  assert (Hgoal : dict_ok m1 /\
    Forall (fun x => dict_ok (deref (row_iadd h1 a guess k) x)) (addrs m1)).
  { split; [done |]. apply (rows_ok_row_write h1 _ m1 a); [done | |].
    - intros a' Hne. now apply row_iadd_other.
    - rewrite row_iadd_deref by done. apply dict_ok_set.
      rewrite Forall_forall in Hrows1. now apply Hrows1. }
  destruct (py_eq truth guess); injection Hupd as <- <-; exact Hgoal.
Qed.

Lemma add_row_lookup (gc : row) :
  forall (h : heap) (a : addr),
    (a < length h)%nat -> dict_ok gc ->
    forall g,
      default 0 (dict_get (deref (add_row h a gc) a) g)
      = default 0 (dict_get (deref h a) g) + default 0 (dict_get gc g).
Proof.
  unfold add_row.
  induction gc as [| [g0 n] gc IH]; intros h a Ha Hgc g;
    cbn [fold_left dict_get fst snd].
  - cbn. lia.
  - destruct Hgc as [Hg0 Hgc].
    rewrite IH by (rewrite ?row_iadd_length; done).
    rewrite row_iadd_deref by done.
    destruct (py_eq g0 g) eqn:Hg.
    + rewrite <- (dict_get_proper _ g0 g Hg), dict_get_set_eq.
      rewrite <- (dict_get_proper gc g0 g Hg), Hg0. cbn.
      rewrite (dict_get_proper (deref h a) g0 g Hg). lia.
    + now rewrite dict_get_set_ne.
Qed.

Lemma add_row_dict_ok (gc : row) :
  forall (h : heap) (a : addr),
    (a < length h)%nat -> dict_ok (deref h a) ->
    dict_ok (deref (add_row h a gc) a).
Proof.
  unfold add_row.
  induction gc as [| [g0 n] gc IH]; intros h a Ha Hok; cbn [fold_left fst snd].
  - done.
  - apply IH; [now rewrite row_iadd_length |].
    rewrite row_iadd_deref by done. now apply dict_ok_set.
Qed.

Lemma add_rows_cells (bm : list (value * addr)) :
  forall h m h' m',
    add_rows bm (h, m) = (h', m') ->
    NoDup (addrs m) -> Forall (fun x => (x < length h)%nat) (addrs m) ->
    dict_ok m -> Forall (fun x => dict_ok (deref h x)) (addrs m) ->
    Forall (fun x => (x < length h)%nat) (addrs bm) ->
    (forall x, x ∈ addrs bm -> x ∉ addrs m) ->
    dict_ok bm -> Forall (fun x => dict_ok (deref h x)) (addrs bm) ->
    (dict_ok m' /\ Forall (fun x => dict_ok (deref h' x)) (addrs m')) /\
    (forall x, (x < length h)%nat -> x ∉ addrs m -> deref h' x = deref h x) /\
    (forall t g, lookup_cell h' m' t g
                 = lookup_cell h m t g + lookup_cell h bm t g).
Proof.
  unfold add_rows.
  induction bm as [| [t0 ab] bm IH];
    intros h m h' m' Hrun Hnd Hlt Hm Hrows Hb Hsep Hbm Hbrows.
  - cbn in Hrun. injection Hrun as <- <-. repeat split; auto.
    intros t g. unfold lookup_cell at 3. cbn. lia.
  - cbn [fold_left fst snd] in Hrun.
    destruct (Confusion.matrix_getitem h m t0) as [[h1 m1] ar] eqn:Hget.
    destruct (matrix_getitem_spec _ _ _ _ _ _ Hget Hnd Hlt)
      as (Hnd1 & Hlt1 & Har & Hlen & Hframe & _ & Hfresh).
    destruct (getitem_lookup _ _ _ _ _ _ Hget Hlt) as [Hm1t Hsame].
    destruct (getitem_dicts_ok _ _ _ _ _ _ Hget Hlt Hm Hrows)
      as [Hm1 Hrows1].
    assert (Har' : (ar < length h1)%nat).
    { rewrite Forall_forall in Hlt1. now apply Hlt1. }
    set (gc := deref h ab) in *.
    destruct (add_row_spec gc h1 ar Har') as (Hlen2 & _ & Hother2).
    set (h2 := add_row h1 ar gc) in *.
    cbn in Hb, Hbrows, Hbm. apply Forall_cons in Hb as [Hab Hb].
    apply Forall_cons in Hbrows as [Hgc Hbrows]. destruct Hbm as [Ht0 Hbm].
    assert (Hsep1 : forall x, x ∈ addrs ((t0, ab) :: bm) -> x ∉ addrs m1).
    { intros x Hx Hx1. destruct (Hfresh x Hx1) as [Hmx | [Hge _]].
      - now apply (Hsep x).
      - assert ((x < length h)%nat); [| lia].
        cbn in Hx. apply elem_of_cons in Hx as [-> | Hx]; [done |].
        rewrite Forall_forall in Hb. now apply Hb. }
    assert (Hbsame : forall x, x ∈ addrs bm -> deref h2 x = deref h x).
    { intros x Hx. rewrite Hother2.
      - apply Hframe. rewrite Forall_forall in Hb. now apply Hb.
      - intros ->. apply (Hsep1 ar); [cbn; now right | done]. }
    apply IH in Hrun as ((Hm' & Hrows') & Hframe' & Hcells').
    + split; [done |]. split.
      * intros x Hx Hxm. rewrite Hframe'.
        -- rewrite Hother2; [now apply Hframe |].
           intros ->. destruct (Hfresh ar Har) as [? | [? _]]; [done | lia].
        -- lia.
        -- intros Hx1. destruct (Hfresh x Hx1) as [? | [? _]]; [done | lia].
      * intros t g. rewrite Hcells'.
        rewrite (lookup_cell_ext h h2 bm Hbsame).
        rewrite (lookup_cell_row_write h1 h2 m1 ar t0 Hnd1 Hm1t Hother2).
        unfold lookup_cell at 4. cbn [dict_get].
        destruct (py_eq t0 t) eqn:Ht.
        -- subst h2. rewrite add_row_lookup by done.
           assert (Hold : default 0 (dict_get (deref h1 ar) g)
                          = lookup_cell h m t g).
           { rewrite <- (lookup_cell_proper h m t0 t g Ht), <- Hsame.
             unfold lookup_cell. now rewrite Hm1t. }
           rewrite Hold. unfold lookup_cell at 2.
           rewrite <- (dict_get_proper bm t0 t Ht), Ht0. fold gc. lia.
        -- rewrite Hsame. fold (lookup_cell h bm t g). lia.
    + done.
    + fold h2. now rewrite Hlen2.
    + done.
    + fold h2. apply (rows_ok_row_write h1 _ m1 ar); [done | done |].
      apply add_row_dict_ok; [done |].
      rewrite Forall_forall in Hrows1. now apply Hrows1.
    + fold h2. rewrite Hlen2. eapply Forall_impl; [exact Hb |]. cbn.
      intros; lia.
    + intros x Hx. apply Hsep1. cbn. now right.
    + done.
    + fold h2. rewrite Forall_forall in Hbrows |- *. intros x Hx.
      rewrite Hbsame by done. now apply Hbrows.
Qed.

Lemma add_rows_footprint (bm : list (value * addr)) :
  forall h m h' m',
    add_rows bm (h, m) = (h', m') ->
    NoDup (addrs m) -> Forall (fun x => (x < length h)%nat) (addrs m) ->
    (length h <= length h')%nat /\
    (forall x, x ∈ addrs m' -> x ∈ addrs m \/ (length h <= x)%nat).
Proof.
  unfold add_rows.
  induction bm as [| [t0 ab] bm IH]; intros h m h' m' Hrun Hnd Hlt.
  - cbn in Hrun. injection Hrun as <- <-. auto.
  - cbn [fold_left fst snd] in Hrun.
    destruct (Confusion.matrix_getitem h m t0) as [[h1 m1] ar] eqn:Hget.
    destruct (matrix_getitem_spec _ _ _ _ _ _ Hget Hnd Hlt)
      as (Hnd1 & Hlt1 & Har & Hlen & _ & _ & Hfresh).
    assert (Har' : (ar < length h1)%nat).
    { rewrite Forall_forall in Hlt1. now apply Hlt1. }
    destruct (add_row_spec (deref h ab) h1 ar Har') as (Hlen2 & _).
    apply IH in Hrun as [Hlen' Hfresh'];
      [| done | now rewrite Hlen2].
    rewrite Hlen2 in Hlen'. split; [lia |].
    intros x Hx. destruct (Hfresh' x Hx) as [Hx1 | Hge]; [| right; lia].
    destruct (Hfresh x Hx1) as [? | [? _]]; auto.
Qed.

Lemma add_owns h a b h' r :
  owns h a -> owns h b -> separate a b ->
  Confusion_add h a (Obj (Conf b)) = Ok (h', r) ->
  owns h' r.
Proof.
  intros ([Hnda Hlta] & Hma & Hrowsa) ([Hndb Hltb] & Hmb & Hrowsb) Hsep Hadd.
  cbn in Hadd.
  destruct (add_rows (Confusion.matrix b) (h, Confusion.matrix a))
    as [h1 m1] eqn:Hrows.
  injection Hadd as <- <-.
  destruct (add_rows_spec _ _ _ _ _ Hrows Hnda Hlta Hltb Hsep)
    as (Hnd' & Hlt' & _).
  destruct (add_rows_cells _ _ _ _ _ Hrows Hnda Hlta Hma Hrowsa Hltb Hsep
              Hmb Hrowsb) as ((Hm' & Hrows') & _).
  repeat split; done.
Qed.

Lemma built_owns h c : built h c -> owns h c.
Proof.
  induction 1 as [h | h c truth guess Hb IH
                 | h a b h' r Ha IHa Hb IHb Hsep Hadd
                 | h h' c Hb IH Hsame].
  - split; [split; cbn; constructor |].
    split; cbn; [exact I | constructor].
  - now apply update_owns.
  - exact (add_owns h a b h' r IHa IHb Hsep Hadd).
  - destruct (built_sound _ _ (built_frame _ _ _ Hb Hsame)) as [Hwf _].
    destruct IH as (_ & Hm & Hrows). repeat split; try done; try apply Hwf.
    rewrite Forall_forall in Hrows |- *. intros x Hx.
    unfold deref. rewrite Hsame by done. now apply Hrows.
Qed.

Lemma deref_lookup (h h' : heap) (x : addr) :
  (x < length h)%nat -> (length h <= length h')%nat ->
  deref h' x = deref h x -> h' !! x = h !! x.
Proof.
  intros Hx Hlen. unfold deref.
  destruct (lookup_lt_is_Some_2 h x Hx) as [r ->].
  destruct (lookup_lt_is_Some_2 h' x ltac:(lia)) as [r' ->].
  cbn. now intros ->.
Qed.

(** What [a + b] does when the operands share no row. *)
Lemma add_effect (h h' : heap) (a b r : Confusion.t) :
  built h a -> built h b -> separate a b ->
  Confusion_add h a (Obj (Conf b)) = Ok (h', r) ->
  (forall t g,
      Confusion.cell h' r t g
      = Confusion.cell h a t g + Confusion.cell h b t g) /\
  (forall x, (x < length h)%nat -> x ∉ addrs (Confusion.matrix a) ->
             h' !! x = h !! x) /\
  (forall x, x ∈ addrs (Confusion.matrix r) ->
             x ∈ addrs (Confusion.matrix a) \/ (length h <= x)%nat) /\
  Confusion.correct r = Confusion.correct a + Confusion.correct b /\
  Confusion.incorrect r = Confusion.incorrect a + Confusion.incorrect b.
Proof.
  intros Ha Hb Hsep Hadd.
  destruct (built_owns _ _ Ha) as ([Hnda Hlta] & Hma & Hrowsa).
  destruct (built_owns _ _ Hb) as ([Hndb Hltb] & Hmb & Hrowsb).
  cbn in Hadd.
  destruct (add_rows (Confusion.matrix b) (h, Confusion.matrix a))
    as [h1 m1] eqn:Hrows.
  injection Hadd as <- <-.
  destruct (add_rows_cells _ _ _ _ _ Hrows Hnda Hlta Hma Hrowsa Hltb Hsep
              Hmb Hrowsb) as (_ & Hframe & Hcells).
  destruct (add_rows_footprint _ _ _ _ _ Hrows Hnda Hlta) as [Hlen Hfoot].
  repeat split; try done.
  intros x Hx Hxa. apply deref_lookup; auto.
Qed.

Lemma cell_frame (h h' : heap) (c : Confusion.t) :
  (forall x, x ∈ addrs (Confusion.matrix c) -> h' !! x = h !! x) ->
  forall t g, Confusion.cell h' c t g = Confusion.cell h c t g.
Proof.
  intros Hsame. apply lookup_cell_ext. intros x Hx. unfold deref.
  now rewrite Hsame.
Qed.

Lemma built_in_range h c x :
  built h c -> x ∈ addrs (Confusion.matrix c) -> (x < length h)%nat.
Proof.
  intros [[_ Hlt] _]%built_sound Hx. rewrite Forall_forall in Hlt. auto.
Qed.

(** X19: when the operands are built matrices that share no row, every
    cell of [a + b] is the sum of the cells of [a] and [b], and the cells of
    [b] are unchanged. *)
Theorem Confusion_add_cells (h h' : heap) (a b r : Confusion.t) :
  built h a -> built h b -> separate a b ->
  Confusion_add h a (Obj (Conf b)) = Ok (h', r) ->
  (forall t g,
      Confusion.cell h' r t g
      = Confusion.cell h a t g + Confusion.cell h b t g) /\
  (forall t g, Confusion.cell h' b t g = Confusion.cell h b t g).
Proof.
  intros Ha Hb Hsep Hadd.
  destruct (add_effect _ _ _ _ _ Ha Hb Hsep Hadd) as (Hcells & Hframe & _).
  split; [exact Hcells |]. apply cell_frame. intros x Hx.
  apply Hframe; [now apply (built_in_range h b) | now apply Hsep].
Qed.

(** Two shards used in the examples: [a] holds ("A", "A") and [b], built
    after it, holds ("B", "A"). *)
Lemma shards_built :
  let a := Confusion.update1 ([], Confusion.init) (VStr "A") (VStr "A") in
  let b := Confusion.update1 (a.1, Confusion.init) (VStr "B") (VStr "A") in
  built b.1 a.2 /\ built b.1 b.2 /\ separate a.2 b.2.
Proof.
  intros a b. repeat split.
  - apply (built_frame a.1).
    + apply (built_update [] Confusion.init), built_init.
    + intros x Hx. cbn in Hx. apply list_elem_of_singleton in Hx as ->.
      reflexivity.
  - apply (built_update a.1 Confusion.init), built_init.
  - intros x Hb Ha. cbn in Ha, Hb.
    apply list_elem_of_singleton in Ha, Hb. congruence.
Qed.

Lemma Confusion_add_cells_witness :
  Confusion.cell [[(VStr "A", 1)]; [(VStr "A", 1)]; [(VStr "A", 1)]]
    (Confusion.mk [(VStr "A", 0%nat); (VStr "B", 2%nat)] 1 1)
    (VStr "B") (VStr "A")
  = 0 + 1.
Proof.
  destruct shards_built as (Ha & Hb & Hsep).
  exact (proj1 (Confusion_add_cells _ _ _ _ _ Ha Hb Hsep eq_refl)
           (VStr "B") (VStr "A")).
Defined.

Lemma separate_sym a b : separate a b -> separate b a.
Proof. intros Hsep x Ha Hb. exact (Hsep x Hb Ha). Qed.

(** X20: for built matrices that share no row, [a + b] and [b + a], both
    computed from the same state, agree on every cell and on [correct] and
    [incorrect]. *)
Theorem Confusion_add_comm_unshared
  (h h1 h2 : heap) (a b x y : Confusion.t) :
  built h a -> built h b -> separate a b ->
  Confusion_add h a (Obj (Conf b)) = Ok (h1, x) ->
  Confusion_add h b (Obj (Conf a)) = Ok (h2, y) ->
  (forall t g, Confusion.cell h1 x t g = Confusion.cell h2 y t g) /\
  Confusion.correct x = Confusion.correct y /\
  Confusion.incorrect x = Confusion.incorrect y.
Proof.
  intros Ha Hb Hsep Hx Hy.
  destruct (add_effect _ _ _ _ _ Ha Hb Hsep Hx) as (Hcx & _ & _ & Hc & Hi).
  destruct (add_effect _ _ _ _ _ Hb Ha (separate_sym _ _ Hsep) Hy)
    as (Hcy & _ & _ & Hc' & Hi').
  repeat split; [| lia | lia].
  intros t g. rewrite Hcx, Hcy. lia.
Qed.

Lemma Confusion_add_comm_unshared_witness :
  Confusion.cell [[(VStr "A", 1)]; [(VStr "A", 1)]; [(VStr "A", 1)]]
    (Confusion.mk [(VStr "A", 0%nat); (VStr "B", 2%nat)] 1 1)
    (VStr "A") (VStr "A")
  = Confusion.cell [[(VStr "A", 1)]; [(VStr "A", 1)]; [(VStr "A", 1)]]
      (Confusion.mk [(VStr "B", 1%nat); (VStr "A", 2%nat)] 1 1)
      (VStr "A") (VStr "A").
Proof.
  destruct shards_built as (Ha & Hb & Hsep).
  exact (proj1 (Confusion_add_comm_unshared _ _ _ _ _ _ _
                  Ha Hb Hsep eq_refl eq_refl) (VStr "A") (VStr "A")).
Defined.

(** X21: for built matrices that pairwise share no row, [(a + b) + c] and
    [a + (b + c)], both computed from the same state, agree on every cell
    and on [correct] and [incorrect]. *)
Theorem Confusion_add_assoc_unshared
  (h h1 h2 h3 h4 : heap) (a b c ab abc bc a_bc : Confusion.t) :
  built h a -> built h b -> built h c ->
  separate a b -> separate a c -> separate b c ->
  Confusion_add h a (Obj (Conf b)) = Ok (h1, ab) ->
  Confusion_add h1 ab (Obj (Conf c)) = Ok (h2, abc) ->
  Confusion_add h b (Obj (Conf c)) = Ok (h3, bc) ->
  Confusion_add h3 a (Obj (Conf bc)) = Ok (h4, a_bc) ->
  (forall t g, Confusion.cell h2 abc t g = Confusion.cell h4 a_bc t g) /\
  Confusion.correct abc = Confusion.correct a_bc /\
  Confusion.incorrect abc = Confusion.incorrect a_bc.
Proof.
  intros Ha Hb Hc Hab Hac Hbc H1 H2 H3 H4.
  destruct (add_effect _ _ _ _ _ Ha Hb Hab H1)
    as (Hc1 & Hf1 & Hfoot1 & Hcor1 & Hinc1).
  destruct (add_effect _ _ _ _ _ Hb Hc Hbc H3)
    as (Hc3 & Hf3 & Hfoot3 & Hcor3 & Hinc3).
  assert (Hc_h1 : forall x, x ∈ addrs (Confusion.matrix c) -> h1 !! x = h !! x).
  { intros x Hx. apply Hf1; [now apply (built_in_range h c) | now apply Hac]. }
  assert (Ha_h3 : forall x, x ∈ addrs (Confusion.matrix a) -> h3 !! x = h !! x).
  { intros x Hx. apply Hf3; [now apply (built_in_range h a) |].
    intros Hxb. exact (Hab x Hxb Hx). }
  assert (Hab_c : separate ab c).
  { intros x Hx Hxab. destruct (Hfoot1 x Hxab) as [Hxa | Hge].
    - exact (Hac x Hx Hxa).
    - pose proof (built_in_range h c x Hc Hx). lia. }
  assert (Ha_bc : separate a bc).
  { intros x Hx Hxa. destruct (Hfoot3 x Hx) as [Hxb | Hge].
    - exact (Hab x Hxb Hxa).
    - pose proof (built_in_range h a x Ha Hxa). lia. }
  destruct (add_effect h1 h2 ab c abc) as (Hc2 & _ & _ & Hcor2 & Hinc2);
    [exact (built_add _ _ _ _ _ Ha Hb Hab H1)
    | exact (built_frame _ _ _ Hc Hc_h1) | done | done |].
  destruct (add_effect h3 h4 a bc a_bc) as (Hc4 & _ & _ & Hcor4 & Hinc4);
    [exact (built_frame _ _ _ Ha Ha_h3)
    | exact (built_add _ _ _ _ _ Hb Hc Hbc H3) | done | done |].
  repeat split; [| lia | lia].
  intros t g.
  rewrite Hc2, Hc1, (cell_frame h h1 c Hc_h1).
  rewrite Hc4, Hc3, (cell_frame h h3 a Ha_h3). lia.
Qed.

(** Three shards built one after the other in the same heap. *)
Lemma three_shards_built :
  let a := Confusion.update1 ([], Confusion.init) (VStr "A") (VStr "A") in
  let b := Confusion.update1 (a.1, Confusion.init) (VStr "B") (VStr "A") in
  let c := Confusion.update1 (b.1, Confusion.init) (VStr "A") (VStr "B") in
  (built c.1 a.2 /\ built c.1 b.2 /\ built c.1 c.2) /\
  (separate a.2 b.2 /\ separate a.2 c.2 /\ separate b.2 c.2).
Proof.
  intros a b c.
  assert (Hsingle : forall (x y z : addr), x ∈ [y] -> x ∈ [z] -> y = z).
  { intros x y z ->%list_elem_of_singleton ->%list_elem_of_singleton.
    reflexivity. }
  split; [split; [| split] | split; [| split]].
  - apply (built_frame a.1).
    + apply (built_update [] Confusion.init), built_init.
    + intros x Hx. cbn in Hx. apply list_elem_of_singleton in Hx as ->.
      reflexivity.
  - apply (built_frame b.1).
    + apply (built_update a.1 Confusion.init), built_init.
    + intros x Hx. cbn in Hx. apply list_elem_of_singleton in Hx as ->.
      reflexivity.
  - apply (built_update b.1 Confusion.init), built_init.
  - intros x Hb Ha. cbn in Ha, Hb. now pose proof (Hsingle _ _ _ Ha Hb).
  - intros x Hc Ha. cbn in Ha, Hc. now pose proof (Hsingle _ _ _ Ha Hc).
  - intros x Hc Hb. cbn in Hb, Hc. now pose proof (Hsingle _ _ _ Hb Hc).
Qed.

Lemma Confusion_add_assoc_unshared_witness :
  exists h2 abc h4 a_bc,
    forall t g, Confusion.cell h2 abc t g = Confusion.cell h4 a_bc t g.
Proof.
  destruct three_shards_built as ((Ha & Hb & Hc) & Hab & Hac & Hbc).
  eexists _, _, _, _.
  eapply proj1.
  eapply (Confusion_add_assoc_unshared _ _ _ _ _ _ _ _ _ _ _ _
            Ha Hb Hc Hab Hac Hbc); reflexivity.
Defined.

(** X22: on a matrix whose rows are allocated and distinct,
    [update(truth, guess, k)] adds [k] to the sum of all cells and 1 to
    [len], and the rows stay allocated and distinct. *)
Theorem Confusion_update_totals
  (h : heap) (c : Confusion.t) (truth guess : value) (k : Z) :
  wf h c ->
  let st' := Confusion.update (h, c) truth guess k in
  wf st'.1 st'.2 /\
  Confusion.cells_total st'.1 (Confusion.matrix st'.2)
  = Confusion.cells_total h (Confusion.matrix c) + k /\
  Confusion.__len__ st'.2 = Confusion.__len__ c + 1.
Proof.
  intros Hwf. cbn zeta.
  destruct (Confusion.update (h, c) truth guess k) as [h' c'] eqn:Hupd.
  destruct (update_spec _ _ _ _ _ _ _ Hupd Hwf) as (Hwf' & Hcells & Hn).
  cbn [fst snd]. unfold Confusion.__len__. auto.
Qed.

Lemma Confusion_update_totals_witness :
  let st := Confusion.update ([], Confusion.init) (VStr "A") (VStr "B") 5 in
  Confusion.cells_total st.1 (Confusion.matrix st.2) = 0 + 5.
Proof.
  apply (Confusion_update_totals [] Confusion.init (VStr "A") (VStr "B") 5).
  split; cbn; constructor.
Defined.

(** ** The count invariant under any merge *)

Lemma dict_get_entry (m : list (value * addr)) (t : value) (a : addr) :
  dict_get m t = Some a -> exists k, (k, a) ∈ m /\ py_eq k t = true.
Proof.
  induction m as [| [k0 a0] m IH]; cbn; [discriminate |].
  destruct (py_eq k0 t) eqn:Hk.
  - intros [= ->]. exists k0. split; [left | done].
  - intros (k & Hin & Hk')%IH. exists k. split; [now right | done].
Qed.

Lemma dict_get_of_entry (m : list (value * addr)) (t k : value) (a : addr) :
  (k, a) ∈ m -> py_eq k t = true -> dict_get m t <> None.
Proof.
  induction m as [| [k0 a0] m IH]; cbn.
  - intros Hin. now apply elem_of_nil in Hin.
  - intros [[= <- <-] | Hin]%elem_of_cons Hk.
    + now rewrite Hk.
    + destruct (py_eq k0 t); [discriminate | now apply IH].
Qed.

Lemma entry_addr (m : list (value * addr)) (t : value) (a : addr) :
  (t, a) ∈ m -> a ∈ addrs m.
Proof. intros Hin. unfold addrs. now apply (list_elem_of_fmap_2 snd) in Hin. Qed.

Lemma addr_entry (m : list (value * addr)) (a : addr) :
  a ∈ addrs m -> exists t, (t, a) ∈ m.
Proof.
  unfold addrs. intros ([t a'] & -> & Hin)%list_elem_of_fmap. now exists t.
Qed.

(** What [m[truth]] leaves behind: the old entries, and at most one new
    entry for a row allocated at the end of the heap. *)
Lemma getitem_entries h m t h1 m1 a :
  Confusion.matrix_getitem h m t = (h1, m1, a) ->
  dict_ok m ->
  dict_ok m1 /\
  (forall e, e ∈ m1 -> e ∈ m \/ (length h <= e.2)%nat) /\
  ((exists k, (k, a) ∈ m /\ py_eq k t = true) \/ (length h <= a)%nat).
Proof.
  unfold Confusion.matrix_getitem. intros Hget Hm.
  destruct (dict_get m t) as [a0 |] eqn:Hmt; injection Hget as <- <- <-.
  - repeat split; auto. left. now apply dict_get_entry.
  - split; [now apply dict_ok_snoc |]. split; [| right; lia].
    intros e [He | He]%elem_of_app; [now left |].
    apply list_elem_of_singleton in He as ->. right. cbn. lia.
Qed.

Lemma add_rows_shared (bm : list (value * addr)) :
  forall h m h' m',
    add_rows bm (h, m) = (h', m') ->
    NoDup (addrs m) -> Forall (fun x => (x < length h)%nat) (addrs m) ->
    dict_ok m ->
    Forall (fun x => (x < length h)%nat) (addrs bm) -> dict_ok bm ->
    (forall t t' x, (t, x) ∈ bm -> (t', x) ∈ m -> py_eq t t' = true) ->
    NoDup (addrs m') /\ Forall (fun x => (x < length h')%nat) (addrs m') /\
    dict_ok m' /\
    (forall e, e ∈ m' -> e ∈ m \/ (length h <= e.2)%nat) /\
    Confusion.cells_total h' m'
    = Confusion.cells_total h m + Confusion.cells_total h bm.
Proof.
  unfold add_rows.
  induction bm as [| [t0 ab] bm IH];
    intros h m h' m' Hrun Hnd Hlt Hm Hb Hbm Hcompat.
  - cbn in Hrun. injection Hrun as <- <-. cbn. repeat split; auto. lia.
  - cbn [fold_left fst snd] in Hrun.
    destruct (Confusion.matrix_getitem h m t0) as [[h1 m1] ar] eqn:Hget.
    destruct (matrix_getitem_spec _ _ _ _ _ _ Hget Hnd Hlt)
      as (Hnd1 & Hlt1 & Har & Hlen & Hframe & Htot & _).
    destruct (getitem_entries _ _ _ _ _ _ Hget Hm) as (Hm1 & Hent & Htarget).
    assert (Har' : (ar < length h1)%nat).
    { rewrite Forall_forall in Hlt1. now apply Hlt1. }
    destruct (add_row_spec (deref h ab) h1 ar Har') as (Hlen2 & Htot2 & Hother2).
    cbn in Hb. apply Forall_cons in Hb as [Hab Hb]. destruct Hbm as [Ht0 Hbm].
    assert (Hrange : forall t x, (t, x) ∈ bm -> (x < length h)%nat).
    { intros t x Hin. rewrite Forall_forall in Hb.
      apply Hb. now apply (entry_addr bm t). }
    (* a row of [b] still to be read is not the row just written *)
    assert (Hunread : forall t x, (t, x) ∈ bm -> x <> ar).
    { intros t x Hin ->. destruct Htarget as [(k & Hk & Hkt) | Hfresh].
      - assert (Htk : py_eq t k = true).
        { apply (Hcompat t k ar); [now right | done]. }
        apply (dict_get_of_entry bm t0 t ar Hin); [| done].
        exact (py_eq_trans _ _ _ Htk Hkt).
      - specialize (Hrange t ar Hin). lia. }
    assert (Hbsame : forall x, x ∈ addrs bm ->
                               deref (add_row h1 ar (deref h ab)) x = deref h x).
    { intros x Hx. destruct (addr_entry bm x Hx) as [t Hin].
      rewrite Hother2 by exact (Hunread t x Hin).
      apply Hframe. exact (Hrange t x Hin). }
    apply IH in Hrun as (Hnd' & Hlt' & Hm' & Hent' & Htot').
    + repeat split; auto.
      * intros e He. destruct (Hent' e He) as [He1 | Hge]; [| right; lia].
        destruct (Hent e He1) as [? | ?]; auto.
      * rewrite Htot'. cbn.
        rewrite (cells_total_bump h1 _ m1 ar (row_total (deref h ab))); auto.
        rewrite (cells_total_ext h _ bm Hbsame). lia.
    + done.
    + now rewrite Hlen2.
    + done.
    + rewrite Hlen2. eapply Forall_impl; [exact Hb |]. cbn. intros; lia.
    + done.
    + intros t t' x Hin Hin1. destruct (Hent _ Hin1) as [Hinm | Hge].
      * apply (Hcompat t t' x); [now right | done].
      * cbn in Hge. specialize (Hrange t x Hin). lia.
Qed.

Lemma key_of_entry (m : list (value * addr)) (t : value) (x : addr) :
  NoDup (addrs m) -> (t, x) ∈ m -> key_of m x = Some t.
Proof.
  induction m as [| [k0 a0] m IH]; cbn.
  - intros _ Hin. now apply elem_of_nil in Hin.
  - intros [Hnotin Hnd]%NoDup_cons [[= <- <-] | Hin]%elem_of_cons.
    + now rewrite Nat.eqb_refl.
    + destruct (Nat.eqb_spec a0 x) as [-> | _]; [| now apply IH].
      destruct Hnotin. now apply (entry_addr m t).
Qed.

Lemma relabel_labelled lab h m m' :
  labelled lab m -> NoDup (addrs m') ->
  (forall e, e ∈ m' -> e ∈ m \/ (length h <= e.2)%nat) ->
  labelled (relabel lab h m') m'.
Proof.
  unfold labelled. intros Hlab Hnd Hent.
  rewrite Forall_forall in Hlab |- *. intros [t x] Hin. cbn. unfold relabel.
  destruct (Nat.ltb_spec x (length h)) as [Hlt | Hge].
  - destruct (Hent _ Hin) as [Hm | Hge]; [| cbn in Hge; lia].
    exact (Hlab _ Hm).
  - rewrite (key_of_entry m' t x Hnd Hin). apply py_eq_refl.
Qed.

(** A matrix that is reached is well formed, labelled, and satisfies the
    count invariant. *)
Lemma reach_sound lab h c :
  reach lab h c ->
  wf h c /\ dict_ok (Confusion.matrix c) /\
  labelled lab (Confusion.matrix c) /\ count_inv h c.
Proof.
  induction 1 as [lab h | lab h c truth guess Hr (Hwf & Hm & Hlab & Hinv)
                 | lab h a b h' r Ha (Hwfa & Hma & Hlaba & Hinva)
                     Hb (Hwfb & Hmb & Hlabb & Hinvb) Hadd
                 | lab lab' h h' c Hr (Hwf & Hm & Hlab & Hinv) Hsame].
  - split; [split; cbn; constructor |].
    split; [exact I |]. split; [constructor | reflexivity].
  - unfold Confusion.update1.
    destruct (Confusion.update (h, c) truth guess 1) as [h' c'] eqn:Hupd.
    destruct (update_spec _ _ _ _ _ _ _ Hupd Hwf) as (Hwf' & Hcells & Hcnt).
    cbn [fst snd].
    assert (Hent : dict_ok (Confusion.matrix c') /\
                   forall e, e ∈ Confusion.matrix c' ->
                             e ∈ Confusion.matrix c \/ (length h <= e.2)%nat).
    { unfold Confusion.update in Hupd.
      destruct (Confusion.matrix_getitem h (Confusion.matrix c) truth)
        as [[h1 m1] a] eqn:Hget.
      destruct (getitem_entries _ _ _ _ _ _ Hget Hm) as (Hm1 & Hent & _).
      destruct (py_eq truth guess); injection Hupd as <- <-; auto. }
    destruct Hent as [Hm' Hent].
    split; [done |]. split; [done |]. split.
    + apply (relabel_labelled lab h (Confusion.matrix c)); [done | | done].
      apply Hwf'.
    + unfold count_inv in *. lia.
  - cbn in Hadd.
    destruct (add_rows (Confusion.matrix b) (h, Confusion.matrix a))
      as [h1 m1] eqn:Hrows.
    injection Hadd as <- <-.
    destruct Hwfa as [Hnda Hlta]. destruct Hwfb as [Hndb Hltb].
    destruct (add_rows_shared _ _ _ _ _ Hrows Hnda Hlta Hma Hltb Hmb)
      as (Hnd' & Hlt' & Hm' & Hent & Htot).
    { intros t t' x Hinb Hina. unfold labelled in Hlaba, Hlabb.
      rewrite Forall_forall in Hlaba, Hlabb.
      specialize (Hlaba _ Hina). specialize (Hlabb _ Hinb). cbn in *.
      rewrite py_eq_sym in Hlabb. exact (py_eq_trans _ _ _ Hlabb Hlaba). }
    cbn. split; [split; done |]. split; [done |]. split.
    + now apply (relabel_labelled lab h (Confusion.matrix a)).
    + unfold count_inv in *. cbn. lia.
  - destruct Hwf as [Hnd Hlt]. split; [split; [done |] |].
    + rewrite Forall_forall in Hlt |- *. intros a Ha.
      apply lookup_lt_is_Some. rewrite (proj1 (Hsame a Ha)).
      apply lookup_lt_is_Some. now apply Hlt.
    + split; [done |]. split.
      * unfold labelled in *. rewrite Forall_forall in Hlab |- *.
        intros [t x] Hin. cbn. rewrite (proj2 (Hsame x (entry_addr _ t x Hin))).
        exact (Hlab _ Hin).
      * unfold count_inv in *. rewrite Hinv. symmetry.
        apply cells_total_ext. intros a Ha. unfold deref.
        now rewrite (proj1 (Hsame a Ha)).
Qed.



(** *** Reached matrices and the rest of the program *)

Lemma row_iadd_lookup_ne (h : heap) (a y : addr) (g : value) (k : Z) :
  y <> a -> row_iadd h a g k !! y = h !! y.
Proof. intros Hne. unfold row_iadd. now rewrite list_lookup_insert_ne. Qed.

Lemma add_row_lookup_ne (gc : row) :
  forall (h : heap) (a y : addr), y <> a -> add_row h a gc !! y = h !! y.
Proof.
  unfold add_row. induction gc as [| [g n] gc IH]; intros h a y Hne; cbn.
  - done.
  - rewrite IH by done. now apply row_iadd_lookup_ne.
Qed.

Lemma getitem_lookup_old h m t h1 m1 a (y : addr) :
  Confusion.matrix_getitem h m t = (h1, m1, a) ->
  (y < length h)%nat -> h1 !! y = h !! y.
Proof.
  unfold Confusion.matrix_getitem. intros Hget Hy.
  destruct (dict_get m t); injection Hget as <- <- <-; [done |].
  now apply lookup_app_l.
Qed.

Lemma getitem_target h m t h1 m1 a :
  Confusion.matrix_getitem h m t = (h1, m1, a) -> dict_get m1 t = Some a.
Proof.
  unfold Confusion.matrix_getitem. intros Hget.
  destruct (dict_get m t) as [a0 |] eqn:Hm; injection Hget as <- <- <-.
  - done.
  - rewrite dict_get_app, Hm. cbn. now rewrite py_eq_refl.
Qed.

Lemma relabel_old lab h m (y : addr) :
  (y < length h)%nat -> relabel lab h m y = lab y.
Proof.
  intros Hy. unfold relabel. now destruct (Nat.ltb_spec y (length h)); [| lia].
Qed.

(** An [update] of another matrix that writes none of the rows of [c] leaves
    [c] reached. *)
Lemma reach_after_update lab h c d truth guess :
  reach lab h c ->
  (forall x, dict_get (Confusion.matrix
                         (Confusion.update1 (h, d) truth guess).2) truth
             = Some x -> x ∉ addrs (Confusion.matrix c)) ->
  reach (relabel lab h
           (Confusion.matrix (Confusion.update1 (h, d) truth guess).2))
        (Confusion.update1 (h, d) truth guess).1 c.
Proof.
  intros Hc Hrow. apply (reach_frame lab _ h); [done |].
  intros y Hy.
  assert (Hlt : (y < length h)%nat).
  { destruct (reach_sound _ _ _ Hc) as ([_ Hlt] & _).
    rewrite Forall_forall in Hlt. now apply Hlt. }
  split; [| now apply relabel_old].
  revert Hrow. unfold Confusion.update1, Confusion.update.
  destruct (Confusion.matrix_getitem h (Confusion.matrix d) truth)
    as [[h1 m1] a] eqn:Hget.
  pose proof (getitem_target _ _ _ _ _ _ Hget) as Ha.
  intros Hrow.
  assert (Hne : y <> a).
  { intros ->. destruct (py_eq truth guess); exact (Hrow a Ha Hy). }
  assert (Hgoal : row_iadd h1 a guess 1 !! y = h !! y).
  { rewrite row_iadd_lookup_ne by done.
    exact (getitem_lookup_old _ _ _ _ _ _ y Hget Hlt). }
  now destruct (py_eq truth guess).
Qed.

Lemma add_rows_targets (bm : list (value * addr)) :
  forall h m h' m' (y : addr),
    add_rows bm (h, m) = (h', m') -> (y < length h)%nat ->
    (forall t x, (t, x) ∈ bm -> dict_get m' t <> Some y) ->
    (exists extra, m' = m ++ extra) /\ h' !! y = h !! y.
Proof.
  unfold add_rows.
  induction bm as [| [t0 ab] bm IH]; intros h m h' m' y Hrun Hy Htargets.
  - cbn in Hrun. injection Hrun as <- <-. split; [| done].
    exists []. now rewrite app_nil_r.
  - cbn [fold_left fst snd] in Hrun.
    destruct (Confusion.matrix_getitem h m t0) as [[h1 m1] ar] eqn:Hget.
    pose proof (getitem_target _ _ _ _ _ _ Hget) as Har.
    assert (Hlen1 : (length h <= length h1)%nat /\ exists e1, m1 = m ++ e1).
    { revert Hget. unfold Confusion.matrix_getitem.
      destruct (dict_get m t0); intros [= <- <- <-].
      - split; [lia |]. exists []. now rewrite app_nil_r.
      - rewrite length_app. split; [lia | eauto]. }
    destruct Hlen1 as [Hlen1 [e1 He1]].
    assert (Hlen2 : length (add_row h1 ar (deref h ab)) = length h1).
    { clear. generalize (deref h ab). intros gc. unfold add_row.
      revert h1. induction gc as [| [g n] gc IH]; intros h1; cbn; [done |].
      now rewrite IH, row_iadd_length. }
    destruct (IH _ _ _ _ y Hrun) as [[e2 He2] Hsame].
    + rewrite Hlen2. lia.
    + intros t x Hin. apply (Htargets t x). now right.
    + split; [exists (e1 ++ e2); now rewrite He2, He1, app_assoc |].
      rewrite Hsame. rewrite add_row_lookup_ne.
      * exact (getitem_lookup_old _ _ _ _ _ _ y Hget Hy).
      * intros ->. apply (Htargets t0 ab); [left |].
        rewrite He2, dict_get_app, Har. reflexivity.
Qed.

(** A [+] that writes none of the rows of [c], that is, whose result stores
    no row of [c] under a label of the right operand, leaves [c] reached. *)
Lemma reach_after_add lab h a b c h' r :
  reach lab h c ->
  Confusion_add h a (Obj (Conf b)) = Ok (h', r) ->
  (forall t x y, (t, x) ∈ Confusion.matrix b ->
                 dict_get (Confusion.matrix r) t = Some y ->
                 y ∉ addrs (Confusion.matrix c)) ->
  reach (relabel lab h (Confusion.matrix r)) h' c.
Proof.
  intros Hc Hadd Hrows. apply (reach_frame lab _ h); [done |].
  intros y Hy.
  assert (Hlt : (y < length h)%nat).
  { destruct (reach_sound _ _ _ Hc) as ([_ Hlt] & _).
    rewrite Forall_forall in Hlt. now apply Hlt. }
  split; [| now apply relabel_old].
  cbn in Hadd.
  destruct (add_rows (Confusion.matrix b) (h, Confusion.matrix a))
    as [h1 m1] eqn:Hrun.
  injection Hadd as <- <-.
  apply (add_rows_targets _ _ _ _ _ y Hrun Hlt).
  intros t x Hin Hget. exact (Hrows t x y Hin Hget Hy).
Qed.

(** In particular a reached matrix can be added to itself: the result
    satisfies the invariant, although the operand no longer does. *)
Lemma self_add_count_inv lab h a h' r :
  reach lab h a ->
  Confusion_add h a (Obj (Conf a)) = Ok (h', r) ->
  count_inv h' r.
Proof.
  intros Ha Hadd.
  now destruct (reach_sound _ _ _ (reach_add lab h a a h' r Ha Ha Hadd))
    as (_ & _ & _ & Hinv).
Qed.
